(** * Auto-Fill Application Forms: a shallow embedding of [model.py]

    The script reads a spreadsheet, looks up three photos per row in an
    extracted archive, renders one document per row and bundles the
    documents.  The embedding follows the script top to bottom.

    Conventions of the model:
    - a Python [str] is a [string] whose characters are the code points
      below 256 (Latin-1);
    - a Python [int] is a [Z] (a [nat] where the script only counts);
    - the float computed for the photo height is an exact rational [Q];
    - pandas, PIL, docxtpl, zipfile and Streamlit are library boundaries:
      their calls are events of a trace, and what they return comes from the
      inputs of the run (the parsed sheet, the extracted tree, the
      renderer). *)

From Stdlib Require Import ZArith QArith Ascii String List.
From stdpp Require Import base option list gmap strings sorting pretty.

(** ** Python string methods used by the script *)

Module PyStr.

(** [str.isspace] on one character, for the code points below 256. *)
Definition isspace (c : ascii) : bool :=
  match c with
  | "009" | "010" | "011" | "012" | "013"
  | "028" | "029" | "030" | "031" | " " | "133" | "160" => true
  | _ => false
  end%char.

(** [str.lower] on one character: A-Z, and the Latin-1 capitals
    0xC0-0xDE without the multiplication sign 0xD7. *)
Definition lower_char (c : ascii) : ascii :=
  let n := N_of_ascii c in
  if ((65 <=? n) && (n <=? 90))%N
     || ((192 <=? n) && (n <=? 222) && negb (n =? 215))%N
  then ascii_of_N (n + 32) else c.

Fixpoint lower (s : string) : string :=
  match s with
  | "" => ""
  | String c s' => String (lower_char c) (lower s')
  end.

(** [s.startswith(p)] *)
Definition startswith (s p : string) : bool := String.prefix p s.

Fixpoint lstrip (s : string) : string :=
  match s with
  | "" => ""
  | String c s' => if isspace c then lstrip s' else s
  end.

Fixpoint rstrip (s : string) : string :=
  match s with
  | "" => ""
  | String c s' =>
      match rstrip s' with
      | "" => if isspace c then "" else String c ""
      | t => String c t
      end
  end.

(** [s.strip()] *)
Definition strip (s : string) : string := rstrip (lstrip s).

Fixpoint all_space (s : string) : bool :=
  match s with
  | "" => true
  | String c s' => isspace c && all_space s'
  end.

Definition first_char (s : string) : option ascii :=
  match s with "" => None | String c _ => Some c end.

Fixpoint last_char (s : string) : option ascii :=
  match s with
  | "" => None
  | String c "" => Some c
  | String _ s' => last_char s'
  end.

Definition endswith_slash (s : string) : bool :=
  match last_char s with Some "/"%char => true | _ => false end.

Fixpoint contains (c : ascii) (s : string) : bool :=
  match s with
  | "" => false
  | String d s' => if Ascii.eqb c d then true else contains c s'
  end.

End PyStr.

(** ** [os.path.join] (posixpath), for two arguments *)

Module PosixPath.

Definition join (a b : string) : string :=
  if PyStr.startswith b "/" then b
  else if String.eqb a "" || PyStr.endswith_slash a then a +:+ b
  else a +:+ "/" +:+ b.

(** The components of a path, split at every slash. *)
Fixpoint components (p : string) : list string :=
  match p with
  | "" => [""]
  | String c p' =>
      if Ascii.eqb c "/" then "" :: components p'
      else match components p' with
           | x :: xs => String c x :: xs
           | [] => [String c ""]
           end
  end.

End PosixPath.

(** ** The file system the script looks at

    A tree of directories and files without links.  Of a file only what
    [PIL.Image.open] makes of it matters: its pixel size, or nothing when
    it is not an image. *)

#[warnings="-register-all"]
Inductive node :=
| File (image : option (Z * Z))
| Dir (entries : list (string * node)).

Module FS.

Fixpoint entry (name : string) (entries : list (string * node)) : option node :=
  match entries with
  | [] => None
  | (n, x) :: rest => if String.eqb n name then Some x else entry name rest
  end.

(** Path resolution.  [up] holds the directories above [cur], nearest
    first.  Every component, also an empty one, a dot or a double dot,
    needs [cur] to be a directory. *)
Fixpoint walk (up : list node) (cur : node) (comps : list string) : option node :=
  match comps with
  | [] => Some cur
  | c :: rest =>
      match cur with
      | File _ => None
      | Dir entries =>
          if String.eqb c "" || String.eqb c "." then walk up cur rest
          else if String.eqb c ".." then
            match up with
            | [] => walk [] cur rest
            | parent :: up' => walk up' parent rest
            end
          else
            match entry c entries with
            | Some x => walk (cur :: up) x rest
            | None => None
            end
      end
  end.

(** [os.stat] without its error codes.  The empty path and a path with a
    NUL character name nothing.  Paths are resolved from the root: the
    directory handed out by [tempfile] is absolute. *)
Definition resolve (root : node) (path : string) : option node :=
  if String.eqb path "" || PyStr.contains "000" path then None
  else walk [] root (PosixPath.components path).

(** [os.path.isdir] *)
Definition isdir (root : node) (path : string) : bool :=
  match resolve root path with Some (Dir _) => true | _ => false end.

(** [os.path.isfile] *)
Definition isfile (root : node) (path : string) : bool :=
  match resolve root path with Some (File _) => true | _ => false end.

End FS.

(** ** Values *)

(** A value of a row as [iterrows] hands it over: text, an int, a truth
    value, NaN for a blank cell, any other float, or a time stamp.  Of a
    float and of a time stamp the script only ever takes the text, so they
    are given by the text [str] makes of them: a whole number that pandas
    holds as a float is [SFloat "100.0"], not [SInt 100]. *)
Inductive scalar :=
| SStr (s : string)
| SInt (z : Z)
| SBool (b : bool)
| SNaN
| SFloat (repr : string)
| STimestamp (text : string).

(** [str(v)] *)
Definition str (v : scalar) : string :=
  match v with
  | SStr s => s
  | SInt z => pretty z
  | SBool true => "True"
  | SBool false => "False"
  | SNaN => "nan"
  | SFloat repr => repr
  | STimestamp text => text
  end.


(** [docxtpl.InlineImage(tpl, image_descriptor, width=, height=)]: the
    object only stores its arguments until the template is rendered. *)
Record InlineImage := {
  image_descriptor : string;
  width : Z;
  height : Q
}.

(** What a template variable can be bound to. *)
Inductive pyval :=
| PScalar (v : scalar)
| PImage (im : InlineImage).

(** Python truthiness, as in [if not img_obj]. *)
Definition truthy (x : pyval) : bool :=
  match x with
  | PScalar (SStr s) => negb (String.eqb s "")
  | PScalar (SInt z) => negb (z =? 0)%Z
  | PScalar (SBool b) => b
  | PScalar SNaN => true
  | PScalar (SFloat repr) =>
      negb (String.eqb repr "0.0" || String.eqb repr "-0.0")
  | PScalar (STimestamp _) => true
  | PImage _ => true
  end.

(** The default of a photo slot, [img_obj = ""]. *)
Definition blank : pyval := PScalar (SStr "").

(** ** The sheet *)

(** [columns] are the header cells, [data] the data rows in sheet order.
    [pd.read_excel] makes the header names distinct. *)
Record DataFrame := {
  columns : list string;
  data : list (list scalar)
}.

(** A row as [iterrows] yields it: values labelled by the columns.  Cells a
    row does not have are blank. *)
Fixpoint series (cols : list string) (cells : list scalar) : list (string * scalar) :=
  match cols with
  | [] => []
  | col :: cols' =>
      match cells with
      | [] => (col, SNaN) :: series cols' []
      | v :: cells' => (col, v) :: series cols' cells'
      end
  end.

Fixpoint enumerate_from {A} (i : nat) (l : list A) : list (nat * A) :=
  match l with
  | [] => []
  | x :: l' => (i, x) :: enumerate_from (S i) l'
  end.

(** [df.iterrows()]: the index of a freshly read sheet counts from 0. *)
Definition iterrows (df : DataFrame) : list (nat * list (string * scalar)) :=
  enumerate_from 0 (series (columns df) <$> data df).

Fixpoint loc (row : list (string * scalar)) (label : string) : option scalar :=
  match row with
  | [] => None
  | (l, v) :: row' => if String.eqb l label then Some v else loc row' label
  end.

(** [row.get(label, default)] *)
Definition row_get (row : list (string * scalar)) (label : string) (default : scalar) : scalar :=
  match loc row label with Some v => v | None => default end.

(** ** Configuration *)

Definition PHOTO_WIDTH_INCHES : Z := 2.

(** [docx.shared.Inches]: a length in English Metric Units. *)
Definition Inches (inches : Z) : Z := (inches * 914400)%Z.

(** ** Exceptions *)

Inductive exn :=
| StopException
| KeyError (key : string)
| ZeroDivisionError
| UnidentifiedImageError (path : string)
| FileNotFoundError (path : string)
| LibraryError (msg : string).

(** [str(e)] *)
Definition exn_str (e : exn) : string :=
  match e with
  | StopException => ""
  | KeyError key => "'" +:+ key +:+ "'"
  | ZeroDivisionError => "division by zero"
  | UnidentifiedImageError path => "cannot identify image file '" +:+ path +:+ "'"
  | FileNotFoundError path => "[Errno 2] No such file or directory: '" +:+ path +:+ "'"
  | LibraryError msg => msg
  end.

Inductive Res (A : Type) :=
| Ok (a : A)
| Raise (e : exn).
Arguments Ok {A} a.
Arguments Raise {A} e.

Definition is_ok {A} (r : Res A) : bool :=
  match r with Ok _ => true | Raise _ => false end.

(** ** The script *)

Section Pipeline.

(** The templating library: a rendered document, and what
    [DocxTemplate(TEMPLATE_PATH)] followed by [tpl.render(context)] makes
    of a context. *)
Variable document : Type.
Variable tpl_render : gmap string pyval → Res document.

(** Calls that leave the script, in the order they are made. *)
Inductive event :=
| StError (msg : string)
| StWarning (msg : string)
| StDownloadButton (entries : list (string * document))
| OsIsDir (path : string)
| OsIsFile (path : string)
| PilOpen (path : string)
| TplRender (context : gmap string pyval)
| TplSave (name : string).

(** A computation runs on the content of [outputs_dir] (file name to
    document); it returns or raises, having made some calls and left
    [outputs_dir] in a new state. *)
Definition M (A : Type) : Type :=
  gmap string document → Res A * list event * gmap string document.

Definition ret {A} (a : A) : M A := λ out, (Ok a, [], out).

Definition raise {A} (e : exn) : M A := λ out, (Raise e, [], out).

Definition bind {A B} (m : M A) (k : A → M B) : M B := λ out,
  match m out with
  | (Ok a, ev, out') =>
      match k a out' with
      | (r, ev', out'') => (r, ev ++ ev', out'')
      end
  | (Raise e, ev, out') => (Raise e, ev, out')
  end.

Definition emit (e : event) : M unit := λ out, (Ok tt, [e], out).

Notation "'let*' x ':=' m 'in' k" := (bind m (λ x, k))
  (at level 10, x pattern, m at level 100, k at level 200).

Fixpoint for_each {A S} (l : list A) (body : A → S → M S) (s : S) : M S :=
  match l with
  | [] => ret s
  | x :: l' => let* s' := body x s in for_each l' body s'
  end.

(** *** Library calls *)

Definition st_error (msg : string) : M unit := emit (StError msg).
Definition st_warning (msg : string) : M unit := emit (StWarning msg).
Definition st_stop {A} : M A := raise StopException.
Definition st_download_button (entries : list (string * document)) : M unit :=
  emit (StDownloadButton entries).

Definition os_isdir (fs : node) (path : string) : M bool :=
  let* _ := emit (OsIsDir path) in ret (FS.isdir fs path).

Definition os_isfile (fs : node) (path : string) : M bool :=
  let* _ := emit (OsIsFile path) in ret (FS.isfile fs path).

(** [with PILImage.open(path) as im: w, h = im.size].  The script opens
    only what [os.path.isfile] has just found, so the last case does not
    arise. *)
Definition pil_size (fs : node) (path : string) : M (Z * Z) :=
  let* _ := emit (PilOpen path) in
  match FS.resolve fs path with
  | Some (File (Some size)) => ret size
  | Some (File None) => raise (UnidentifiedImageError path)
  | _ => raise (FileNotFoundError path)
  end.

(** [a / b] on two ints *)
Definition truediv (a b : Z) : M Q :=
  if (b =? 0)%Z then raise ZeroDivisionError
  else ret (inject_Z a / inject_Z b)%Q.

Definition render (context : gmap string pyval) : M document :=
  let* _ := emit (TplRender context) in
  match tpl_render context with
  | Ok doc => ret doc
  | Raise e => raise e
  end.

(** [tpl.save(os.path.join(outputs_dir, name))] *)
Definition save (name : string) (doc : document) : M unit := λ out,
  (Ok tt, [TplSave name], <[name := doc]> out).

(** [os.listdir(outputs_dir)] *)
Definition os_listdir : M (list string) := λ out,
  (Ok (map_to_list out).*1, [], out).

(** [zipf.write(os.path.join(outputs_dir, fname), arcname=fname)] *)
Definition zip_write (fname : string) (zipf : list (string * document))
  : M (list (string * document)) := λ out,
  match out !! fname with
  | Some doc => (Ok (zipf ++ [(fname, doc)]), [], out)
  | None => (Raise (FileNotFoundError fname), [], out)
  end.

(** [with tempfile.TemporaryDirectory() as tmpdir]: [outputs_dir] starts
    empty and is gone afterwards, however the body ends. *)
Definition with_tempdir {A} (body : M A) : M A := λ _,
  match body ∅ with
  | (r, ev, _) => (r, ev, ∅)
  end.

(** *** One row *)

(** [col.lower().startswith("photo")] *)
Definition is_photo_column (col : string) : bool :=
  PyStr.startswith (PyStr.lower col) "photo".

(** [{col: row[col] for col in df.columns if not is_photo_column(col)}] *)
Fixpoint build_context (row : list (string * scalar)) (cols : list string)
    (context : gmap string pyval) : M (gmap string pyval) :=
  match cols with
  | [] => ret context
  | col :: cols' =>
      if negb (is_photo_column col) then
        match loc row col with
        | Some v => build_context row cols' (<[col := PScalar v]> context)
        | None => raise (KeyError col)
        end
      else build_context row cols' context
  end.

(** [str(row.get("Application_Number", "")).strip()] *)
Definition app_no_of (row : list (string * scalar)) : string :=
  PyStr.strip (str (row_get row "Application_Number" (SStr ""))).

(** [os.path.join(app_folder, f"{key}.{ext}")] *)
Definition img_path (app_folder key ext : string) : string :=
  PosixPath.join app_folder (key +:+ "." +:+ ext).

(** The [for ext in ...] loop with its [break]. *)
Fixpoint find_photo (fs : node) (app_folder key : string) (exts : list string)
  : M pyval :=
  match exts with
  | [] => ret blank
  | ext :: exts' =>
      let* found := os_isfile fs (img_path app_folder key ext) in
      if found then
        let* size := pil_size fs (img_path app_folder key ext) in
        let w := size.1 in
        let h := size.2 in
        let* ratio := truediv h w in
        let tgt_w := Inches PHOTO_WIDTH_INCHES in
        let tgt_h := (inject_Z tgt_w * ratio)%Q in
        ret (PImage {| image_descriptor := img_path app_folder key ext;
                       width := tgt_w; height := tgt_h |})
      else find_photo fs app_folder key exts'
  end.

(** [f"photo{i}"] *)
Definition photo_key (i : Z) : string := "photo" +:+ pretty i.

Definition missing_warning (key app_no : string) : string :=
  "Missing `" +:+ key +:+ ".*` in folder `" +:+ app_no +:+ "/`".

(** The body of [for i in (1, 2, 3)]. *)
Definition fill_slot (fs : node) (app_no app_folder : string) (i : Z)
    (context : gmap string pyval) : M (gmap string pyval) :=
  let key := photo_key i in
  let* is_dir := os_isdir fs app_folder in
  let* img_obj :=
    (if is_dir then find_photo fs app_folder key ["jpg"; "jpeg"; "png"]
     else ret blank) in
  let* _ :=
    (if negb (truthy img_obj) then st_warning (missing_warning key app_no)
     else ret tt) in
  ret (<[key := img_obj]> context).

Definition out_name (idx : nat) : string :=
  "filled_form_" +:+ pretty (idx + 1)%nat +:+ ".docx".

(** The context handed to the template for one row. *)
Definition row_context (fs : node) (photos_dir : string) (cols : list string)
    (row : list (string * scalar)) : M (gmap string pyval) :=
  let* context := build_context row cols ∅ in
  let app_no := app_no_of row in
  let app_folder := PosixPath.join photos_dir app_no in
  for_each [1; 2; 3]%Z (fill_slot fs app_no app_folder) context.

(** The body of [for idx, row in df.iterrows()]. *)
Definition process_row (fs : node) (photos_dir : string) (cols : list string)
    (idx : nat) (row : list (string * scalar)) : M unit :=
  let* context := row_context fs photos_dir cols row in
  let* doc := render context in
  save (out_name idx) doc.

(** *** The run *)

(** One run of the script.  [excel_file] and [photos_zip] are the two
    uploads, if any: the first as [pd.read_excel] reads it (a frame or an
    exception), the second as the file system stands once
    [extractall(photos_dir)] is through (or the exception of [zipfile]).
    [tmpdir] is the directory [tempfile] hands out.  The match on the two
    uploads is [if not excel_file or not photos_zip]; [sorted] is a merge
    sort by the code-point order of strings. *)
Definition main (generate_btn : bool) (excel_file : option (Res DataFrame))
    (photos_zip : option (Res node)) (tmpdir : string) : M unit :=
  if generate_btn then
    match excel_file, photos_zip with
    | Some excel, Some archive =>
        let* df :=
          match excel with
          | Ok df => ret df
          | Raise e =>
              let* _ := st_error ("Failed to read Excel file: " +:+ exn_str e) in
              st_stop
          end in
        with_tempdir (
          let photos_dir := PosixPath.join tmpdir "photos" in
          let* fs :=
            match archive with
            | Ok fs => ret fs
            | Raise e => raise e
            end in
          let* _ :=
            for_each (iterrows df)
              (λ r _, process_row fs photos_dir (columns df) r.1 r.2) tt in
          let* names := os_listdir in
          let* zipf := for_each (merge_sort String.le names) zip_write [] in
          st_download_button zipf)
    | _, _ =>
        let* _ := st_error
          "Please upload both the Excel and the photos ZIP before generating." in
        st_stop
    end
  else ret tt.

(** *** Reading a trace *)

Definition warnings (ev : list event) : list string :=
  omap (λ e, match e with StWarning msg => Some msg | _ => None end) ev.

Definition saved (ev : list event) : list string :=
  omap (λ e, match e with TplSave name => Some name | _ => None end) ev.

Definition rendered (ev : list event) : list (gmap string pyval) :=
  omap (λ e, match e with TplRender c => Some c | _ => None end) ev.

Definition downloads (ev : list event) : list (list (string * document)) :=
  omap (λ e, match e with StDownloadButton z => Some z | _ => None end) ev.

End Pipeline.

Arguments StError {document} msg.
Arguments StWarning {document} msg.
Arguments StDownloadButton {document} entries.
Arguments OsIsDir {document} path.
Arguments OsIsFile {document} path.
Arguments PilOpen {document} path.
Arguments TplRender {document} context.
Arguments TplSave {document} name.
Arguments ret {document A} a _.
Arguments raise {document A} e _.
Arguments bind {document A B} m k _.
Arguments emit {document} e _.
Arguments for_each {document A S} l body s.
Arguments st_error {document} msg.
Arguments st_warning {document} msg.
Arguments st_stop {document A}.
Arguments st_download_button {document} entries.
Arguments os_isdir {document} fs path.
Arguments os_isfile {document} fs path.
Arguments pil_size {document} fs path.
Arguments truediv {document} a b.
Arguments render {document} tpl_render context.
Arguments save {document} name doc _.
Arguments os_listdir {document} _.
Arguments zip_write {document} fname zipf _.
Arguments with_tempdir {document A} body _.
Arguments build_context {document} row cols context.
Arguments find_photo {document} fs app_folder key exts.
Arguments fill_slot {document} fs app_no app_folder i context.
Arguments row_context {document} fs photos_dir cols row.
Arguments process_row {document} tpl_render fs photos_dir cols idx row.
Arguments main {document} tpl_render generate_btn excel_file photos_zip tmpdir.
Arguments warnings {document} ev.
Arguments saved {document} ev.
Arguments rendered {document} ev.
Arguments downloads {document} ev.

(** ** The warning line as the specification words it *)

Definition dquote : string := String "034" "".

(** [Missing "photo{N}.*" in folder "{key}/"], with double quotes. *)
Definition spec_warning (n : Z) (key : string) : string :=
  "Missing " +:+ dquote +:+ "photo" +:+ pretty n +:+ ".*" +:+ dquote
  +:+ " in folder " +:+ dquote +:+ key +:+ "/" +:+ dquote.

(** ** Premises as the specification words them *)


(** "The Application_Number column is absent or its cell is
    blank/whitespace". *)
Definition spec_key_absent_or_blank (row : list (string * scalar)) : Prop :=
  loc row "Application_Number" = None
  ∨ loc row "Application_Number" = Some SNaN
  ∨ ∃ s, loc row "Application_Number" = Some (SStr s)
         ∧ PyStr.all_space s = true.

(** ** Vocabulary of the statements *)

(** A computation that neither reads nor writes [outputs_dir]. *)
Definition stateless {document A} (m : M document A) : Prop :=
  ∀ out, m out = ((m ∅).1, out).

(** The image reference built for a file of [w] by [h] pixels. *)
Definition sized (path : string) (w h : Z) : pyval :=
  PImage {| image_descriptor := path;
            width := Inches PHOTO_WIDTH_INCHES;
            height := inject_Z (Inches PHOTO_WIDTH_INCHES)
                      * (inject_Z h / inject_Z w) |}.

(** What a slot that returned has bound [x] to, and the warnings [ws] it
    gave: blank with one warning, or a sized image with none. *)
Definition slot_bound (fs : node) (app_no folder : string) (i : Z)
    (x : pyval) (ws : list string) : Prop :=
  (x = blank
   ∧ ws = [missing_warning (photo_key i) app_no]
   ∧ (FS.isdir fs folder = false
      ∨ Forall (λ e, FS.isfile fs (img_path folder (photo_key i) e) = false)
          ["jpg"; "jpeg"; "png"]))
  ∨ (∃ ext w h,
       ext ∈ ["jpg"; "jpeg"; "png"]
       ∧ FS.isdir fs folder = true
       ∧ FS.resolve fs (img_path folder (photo_key i) ext)
         = Some (File (Some (w, h)))
       ∧ w ≠ 0%Z
       ∧ x = sized (img_path folder (photo_key i) ext) w h
       ∧ ws = []).

(** The state of [outputs_dir] after the documents [docs] were saved for
    the positions from [i] on. *)
Definition saved_docs {document} (i : nat) (docs : list document)
    (out : gmap string document) : gmap string document :=
  foldl (λ o jd, <[out_name jd.1 := jd.2]> o) out (enumerate_from i docs).

(** A call a row makes while its context is built: a probe of [folder],
    a probe or an opening of a candidate in it, or a warning. *)
Definition slot_event {document} (folder : string) (e : event document) : Prop :=
  match e with
  | OsIsDir p => p = folder
  | OsIsFile p | PilOpen p => ∃ key ext, p = img_path folder key ext
  | StWarning _ => True
  | _ => False
  end.

(** The calls of the loop over the rows from position [i] on, given for
    each row its context, the calls made to build it and its document. *)
Fixpoint loop_trace {document} (i : nat)
    (results : list (gmap string pyval * list (event document) * document))
  : list (event document) :=
  match results with
  | [] => []
  | t :: rest =>
      t.1.2 ++ [TplRender t.1.1; TplSave (out_name i)] ++ loop_trace (S i) rest
  end.

(** The rows of the sheet went through: row by row, the context that was
    built, the calls made for it and the document rendered from it. *)
Definition rows_done {document} (tpl_render : gmap string pyval → Res document)
    (fs : node) (photos_dir : string) (cols : list string)
    (rows : list (list (string * scalar)))
    (results : list (gmap string pyval * list (event document) * document))
  : Prop :=
  Forall2 (λ row t,
    (∀ out, row_context fs photos_dir cols row out = (Ok t.1.1, t.1.2, out))
    ∧ tpl_render t.1.1 = Ok t.2) rows results.

(** ** A sample run

    Two rows, keys [" A100 "] and ["A101"]; the archive holds a folder
    [A100] with [photo1.jpg], [photo1.png] and [photo2.png], no folder
    [A101], and a [photo3.jpeg] next to the folders. *)

Module Sample.

Definition folder_A100 : node :=
  Dir [("photo1.jpg", File (Some (400, 300)%Z));
       ("photo1.png", File (Some (50, 50)%Z));
       ("photo2.png", File (Some (100, 200)%Z))].

Definition fs : node :=
  Dir [("tmp", Dir [("run", Dir [
    ("photos", Dir [("A100", folder_A100);
                    ("photo3.jpeg", File (Some (640, 480)%Z))]);
    ("outputs", Dir [])])])].

Definition tmpdir : string := "/tmp/run".
Definition photos_dir : string := "/tmp/run/photos".

Definition cols : list string :=
  ["Application_Number"; "Name"; "photo1"; "Photo_ID"].

Definition df : DataFrame :=
  {| columns := cols;
     data := [[SStr " A100 "; SStr "Ann"; SStr "x"; SInt 5];
              [SStr "A101"; SStr "Bob"]] |}.

(** A sheet without the key column. *)
Definition df_nokey : DataFrame :=
  {| columns := ["Name"]; data := [[SStr "Cy"]] |}.

(** A renderer that returns the context as the document. *)
Definition echo (context : gmap string pyval) : Res (gmap string pyval) :=
  Ok context.

End Sample.

(** * Properties *)

Arguments PosixPath.join : simpl never.
Arguments FS.resolve : simpl never.
Arguments FS.isdir : simpl never.
Arguments FS.isfile : simpl never.
Arguments Inches : simpl never.
Arguments photo_key : simpl never.
Arguments missing_warning : simpl never.
Arguments out_name : simpl never.

(** ** Tactics *)

(** Membership in a list written out, decided by going through it. *)
Ltac in_list := repeat first [apply list_elem_of_here | apply list_elem_of_further].
Ltac notin_list :=
  let H := fresh in
  intros H;
  repeat (apply elem_of_cons in H as [H|H]; [discriminate H|]);
  by apply elem_of_nil in H.

(** ** Strings *)

Section Strings.

Import PyStr.

Lemma app_cons_str (c : ascii) (s t : string) :
  String c s +:+ t = String c (s +:+ t).
Proof. reflexivity. Qed.

Lemma app_nil_l_str (t : string) : "" +:+ t = t.
Proof. reflexivity. Qed.

Lemma app_nil_r_str (s : string) : s +:+ "" = s.
Proof. induction s as [|c s IH]; [done|]. by rewrite app_cons_str, IH. Qed.

Lemma app_assoc_str (a b c : string) : (a +:+ b) +:+ c = a +:+ b +:+ c.
Proof.
  induction a as [|x a IH]; [done|]. by rewrite !app_cons_str, IH.
Qed.

Lemma all_space_app (a b : string) :
  all_space (a +:+ b) = all_space a && all_space b.
Proof.
  induction a as [|c a IH]; [done|].
  rewrite app_cons_str. simpl. rewrite IH. by destruct (isspace c).
Qed.

Lemma lstrip_split (s : string) :
  ∃ l, s = l +:+ lstrip s ∧ all_space l = true.
Proof.
  induction s as [|c s (l & Hs & Hl)]; simpl.
  - by exists "".
  - destruct (isspace c) eqn:Hc.
    + exists (String c l). simpl. rewrite Hc, Hl, app_cons_str. by rewrite <- Hs.
    + by exists "".
Qed.

Lemma lstrip_first (s : string) (c : ascii) :
  first_char (lstrip s) = Some c → isspace c = false.
Proof.
  induction s as [|d s IH]; simpl; [done|].
  destruct (isspace d) eqn:Hd; [done|].
  simpl. by intros [= <-].
Qed.

Lemma rstrip_split (s : string) :
  ∃ r, s = rstrip s +:+ r ∧ all_space r = true.
Proof.
  induction s as [|c s (r & Hs & Hr)]; simpl.
  - by exists "".
  - destruct (rstrip s) as [|d t] eqn:Ht.
    + rewrite app_nil_l_str in Hs. subst r. destruct (isspace c) eqn:Hc.
      * exists (String c s). simpl. by rewrite Hc, Hr.
      * by exists s.
    + exists r. rewrite app_cons_str. by rewrite Hs at 1.
Qed.

Lemma rstrip_last (s : string) (c : ascii) :
  last_char (rstrip s) = Some c → isspace c = false.
Proof.
  induction s as [|d s IH]; simpl; [done|].
  destruct (rstrip s) as [|e t] eqn:Ht.
  - destruct (isspace d) eqn:Hd; simpl; [done|]. by intros [= <-].
  - simpl. simpl in IH. done.
Qed.

Lemma rstrip_first (s : string) (c : ascii) :
  first_char (rstrip s) = Some c → first_char s = Some c.
Proof.
  destruct s as [|d s]; simpl; [done|].
  destruct (rstrip s); [destruct (isspace d)|]; simpl; done.
Qed.

(** [strip] removes a run of white space at either end and nothing
    else. *)
Lemma strip_split (s : string) :
  ∃ l r, s = l +:+ strip s +:+ r
         ∧ all_space l = true ∧ all_space r = true.
Proof.
  destruct (lstrip_split s) as (l & Hs & Hl).
  destruct (rstrip_split (lstrip s)) as (r & Ht & Hr).
  exists l, r. split; [|done]. unfold strip. by rewrite <- Ht.
Qed.

Lemma strip_first (s : string) (c : ascii) :
  first_char (strip s) = Some c → isspace c = false.
Proof. intros H. by eapply lstrip_first, rstrip_first. Qed.

Lemma strip_last (s : string) (c : ascii) :
  last_char (strip s) = Some c → isspace c = false.
Proof. apply rstrip_last. Qed.

Lemma lstrip_all_space (s : string) : all_space s = true → lstrip s = "".
Proof.
  induction s as [|c s IH]; simpl; [done|].
  destruct (isspace c); [auto|done].
Qed.

Lemma strip_all_space (s : string) : all_space s = true → strip s = "".
Proof. intros H. unfold strip. by rewrite lstrip_all_space. Qed.

Lemma strip_empty_all_space (s : string) : strip s = "" → all_space s = true.
Proof.
  intros H. destruct (strip_split s) as (l & r & Hs & Hl & Hr).
  rewrite H, app_nil_l_str in Hs. rewrite Hs, all_space_app, Hl, Hr. done.
Qed.

End Strings.

(** ** The monad *)

Section Monad.

Context {document : Type}.
Abbreviation M := (M document).

Lemma bind_unfold {A B} (m : M A) (k : A → M B) out :
  bind m k out
  = match m out with
    | (Ok a, ev, out') =>
        match k a out' with
        | (r, ev', out'') => (r, ev ++ ev', out'')
        end
    | (Raise e, ev, out') => (Raise e, ev, out')
    end.
Proof. reflexivity. Qed.

Lemma os_isdir_run fs path (out : gmap string document) :
  os_isdir fs path out = (Ok (FS.isdir fs path), [OsIsDir path], out).
Proof. reflexivity. Qed.

Lemma os_isfile_run fs path (out : gmap string document) :
  os_isfile fs path out = (Ok (FS.isfile fs path), [OsIsFile path], out).
Proof. reflexivity. Qed.

Lemma bind_ok {A B} (m : M A) (k : A → M B) out a ev out' :
  m out = (Ok a, ev, out') →
  bind m k out = ((k a out').1.1, ev ++ (k a out').1.2, (k a out').2).
Proof. unfold bind. intros ->. by destruct (k a out') as [[??]?]. Qed.

Lemma bind_raise {A B} (m : M A) (k : A → M B) out e ev out' :
  m out = (Raise e, ev, out') → bind m k out = (Raise e, ev, out').
Proof. unfold bind. by intros ->. Qed.

Lemma stateless_ret {A} (a : A) : stateless (document:=document) (ret a).
Proof. done. Qed.

Lemma stateless_raise {A} (e : exn) :
  stateless (document:=document) (raise (A:=A) e).
Proof. done. Qed.

Lemma stateless_emit (e : event document) : stateless (emit e).
Proof. done. Qed.

Lemma stateless_bind {A B} (m : M A) (k : A → M B) :
  stateless m → (∀ a, stateless (k a)) → stateless (bind m k).
Proof.
  intros Hm Hk out. unfold bind. rewrite (Hm out).
  destruct (m ∅) as [[[a|e] ev] o]; simpl; [|done].
  rewrite (Hk a out), (Hk a o). by destruct (k a ∅) as [[??]?].
Qed.

Lemma stateless_for_each {A S} (l : list A) (body : A → S → M S) (s : S) :
  (∀ x s, stateless (body x s)) → stateless (for_each l body s).
Proof.
  intros Hb. revert s. induction l as [|x l IH]; intros s; simpl.
  - apply stateless_ret.
  - apply stateless_bind; auto.
Qed.

End Monad.

(** ** The search over the extensions *)

Section FindPhoto.

Context {document : Type}.
Implicit Types (fs : node) (out : gmap string document).

Lemma isfile_of_resolve fs path img :
  FS.resolve fs path = Some (File img) → FS.isfile fs path = true.
Proof. unfold FS.isfile. by intros ->. Qed.

Lemma find_photo_miss fs folder key ext exts out :
  FS.isfile fs (img_path folder key ext) = false →
  find_photo fs folder key (ext :: exts) out
  = ((find_photo fs folder key exts out).1.1,
     OsIsFile (img_path folder key ext) :: (find_photo fs folder key exts out).1.2,
     (find_photo fs folder key exts out).2).
Proof.
  intros H. simpl. unfold bind at 1. unfold os_isfile, bind, emit, ret. simpl.
  rewrite H. by destruct (find_photo fs folder key exts out) as [[??]?].
Qed.

Lemma find_photo_hit fs folder key ext exts out w h :
  FS.resolve fs (img_path folder key ext) = Some (File (Some (w, h))) →
  w ≠ 0%Z →
  find_photo fs folder key (ext :: exts) out
  = (Ok (sized (img_path folder key ext) w h),
     [OsIsFile (img_path folder key ext); PilOpen (img_path folder key ext)],
     out).
Proof.
  intros H Hw. simpl. unfold os_isfile, pil_size, truediv, bind, emit, ret. simpl.
  rewrite (isfile_of_resolve _ _ _ H), H. simpl.
  apply Z.eqb_neq in Hw. by rewrite Hw.
Qed.

(** What a search that returns has done. *)
Lemma find_photo_inv fs folder key exts out x ev out' :
  find_photo fs folder key exts out = (Ok x, ev, out') →
  out' = out ∧
  ((x = blank
    ∧ ev = OsIsFile <$> (img_path folder key <$> exts)
    ∧ Forall (λ e, FS.isfile fs (img_path folder key e) = false) exts)
   ∨ (∃ pre ext post w h,
        exts = pre ++ ext :: post
        ∧ Forall (λ e, FS.isfile fs (img_path folder key e) = false) pre
        ∧ FS.resolve fs (img_path folder key ext) = Some (File (Some (w, h)))
        ∧ w ≠ 0%Z
        ∧ x = sized (img_path folder key ext) w h
        ∧ ev = (OsIsFile <$> (img_path folder key <$> pre ++ [ext]))
               ++ [PilOpen (img_path folder key ext)])).
Proof.
  revert ev. induction exts as [|ext exts IH]; intros ev.
  - intros [= <- <- <-]. split; [done|]. left. by repeat split.
  - destruct (FS.isfile fs (img_path folder key ext)) eqn:Hf.
    + simpl. unfold os_isfile, pil_size, truediv, bind, emit, ret. simpl.
      rewrite Hf. unfold FS.isfile in Hf.
      destruct (FS.resolve fs (img_path folder key ext)) as [[[[w h]|]|]|] eqn:Hr;
        try done.
      simpl. destruct (w =? 0)%Z eqn:Hw; [done|].
      intros [= <- <- <-]. split; [done|]. right.
      exists [], ext, exts, w, h. apply Z.eqb_neq in Hw. by repeat split.
    + rewrite find_photo_miss by done.
      destruct (find_photo fs folder key exts out) as [[r ev1] o1] eqn:Hrec.
      simpl. intros [= -> <- <-].
      destruct (IH ev1 eq_refl) as [-> [(-> & -> & Hall)|Hhit]].
      * split; [done|]. left. split_and!; [done..|]. by constructor.
      * destruct Hhit as (pre & e & post & w & h & -> & Hpre & Hr & Hw & -> & ->).
        split; [done|]. right. exists (ext :: pre), e, post, w, h.
        split_and!; try done. by constructor.
Qed.

Lemma find_photo_skip fs folder key pre exts out :
  Forall (λ e, FS.isfile fs (img_path folder key e) = false) pre →
  find_photo fs folder key (pre ++ exts) out
  = ((find_photo fs folder key exts out).1.1,
     (OsIsFile <$> (img_path folder key <$> pre))
     ++ (find_photo fs folder key exts out).1.2,
     (find_photo fs folder key exts out).2).
Proof.
  induction 1 as [|e pre He _ IH].
  - simpl. by destruct (find_photo fs folder key exts out) as [[??]?].
  - rewrite <- app_comm_cons, find_photo_miss by done. by rewrite IH.
Qed.

Lemma find_photo_none fs folder key exts out :
  Forall (λ e, FS.isfile fs (img_path folder key e) = false) exts →
  find_photo fs folder key exts out
  = (Ok blank, OsIsFile <$> (img_path folder key <$> exts), out).
Proof.
  intros H. rewrite <- (app_nil_r exts) at 1.
  rewrite find_photo_skip by done. simpl. by rewrite app_nil_r.
Qed.

(** The first candidate that is a file is taken; the later ones are not
    looked at. *)
Lemma find_photo_first fs folder key pre ext post out w h :
  Forall (λ e, FS.isfile fs (img_path folder key e) = false) pre →
  FS.resolve fs (img_path folder key ext) = Some (File (Some (w, h))) →
  w ≠ 0%Z →
  find_photo fs folder key (pre ++ ext :: post) out
  = (Ok (sized (img_path folder key ext) w h),
     (OsIsFile <$> (img_path folder key <$> pre ++ [ext]))
     ++ [PilOpen (img_path folder key ext)],
     out).
Proof.
  intros Hpre Hr Hw. rewrite find_photo_skip by done.
  rewrite (find_photo_hit _ _ _ _ _ _ _ _ Hr Hw). simpl.
  by rewrite !fmap_app, <- app_assoc.
Qed.

End FindPhoto.

(** ** One photo slot *)

Section FillSlot.

Context {document : Type}.
Implicit Types (fs : node) (out : gmap string document)
  (context : gmap string pyval).

Lemma warnings_app (ev1 ev2 : list (event document)) :
  warnings (ev1 ++ ev2) = warnings ev1 ++ warnings ev2.
Proof. apply omap_app. Qed.

Lemma warnings_isfile (paths : list string) :
  warnings (document:=document) (OsIsFile <$> paths) = [].
Proof. by induction paths. Qed.

Lemma fill_slot_nodir fs app_no folder i context out :
  FS.isdir fs folder = false →
  fill_slot fs app_no folder i context out
  = (Ok (<[photo_key i := blank]> context),
     [OsIsDir folder; StWarning (missing_warning (photo_key i) app_no)],
     out).
Proof.
  intros H. unfold fill_slot. rewrite bind_unfold, os_isdir_run, H.
  reflexivity.
Qed.

Lemma fill_slot_dir fs app_no folder i context out x ev :
  FS.isdir fs folder = true →
  find_photo fs folder (photo_key i) ["jpg"; "jpeg"; "png"] out = (Ok x, ev, out) →
  fill_slot fs app_no folder i context out
  = (Ok (<[photo_key i := x]> context),
     OsIsDir folder :: ev
     ++ (if truthy x then []
         else [StWarning (missing_warning (photo_key i) app_no)]),
     out).
Proof.
  intros H Hf. unfold fill_slot. rewrite bind_unfold, os_isdir_run, H.
  cbv beta iota. rewrite bind_unfold, Hf. cbv beta iota.
  by destruct (truthy x).
Qed.

Lemma fill_slot_first fs app_no folder i context out pre ext post w h :
  FS.isdir fs folder = true →
  ["jpg"; "jpeg"; "png"] = pre ++ ext :: post →
  Forall (λ e, FS.isfile fs (img_path folder (photo_key i) e) = false) pre →
  FS.resolve fs (img_path folder (photo_key i) ext) = Some (File (Some (w, h))) →
  w ≠ 0%Z →
  fill_slot fs app_no folder i context out
  = (Ok (<[photo_key i := sized (img_path folder (photo_key i) ext) w h]> context),
     OsIsDir folder
     :: (OsIsFile <$> (img_path folder (photo_key i) <$> pre ++ [ext]))
     ++ [PilOpen (img_path folder (photo_key i) ext)],
     out).
Proof.
  intros Hd Hsplit Hpre Hr Hw.
  erewrite fill_slot_dir; [|done|rewrite Hsplit; by apply find_photo_first].
  simpl. by rewrite app_nil_r.
Qed.

Lemma fill_slot_none fs app_no folder i context out :
  FS.isdir fs folder = true →
  Forall (λ e, FS.isfile fs (img_path folder (photo_key i) e) = false)
    ["jpg"; "jpeg"; "png"] →
  fill_slot fs app_no folder i context out
  = (Ok (<[photo_key i := blank]> context),
     OsIsDir folder
     :: (OsIsFile <$> (img_path folder (photo_key i) <$> ["jpg"; "jpeg"; "png"]))
     ++ [StWarning (missing_warning (photo_key i) app_no)],
     out).
Proof.
  intros Hd Hall. erewrite fill_slot_dir; [|done|by apply find_photo_none]. done.
Qed.

(** What a slot that returns has done: the slot key is bound, either to
    the blank value, with one warning, or to a sized image, with none. *)
Lemma fill_slot_inv fs app_no folder i context out context' ev out' :
  fill_slot fs app_no folder i context out = (Ok context', ev, out') →
  out' = out ∧
  ∃ x, context' = <[photo_key i := x]> context ∧
    ((x = blank
      ∧ warnings ev = [missing_warning (photo_key i) app_no]
      ∧ (FS.isdir fs folder = false
         ∨ Forall (λ e, FS.isfile fs (img_path folder (photo_key i) e) = false)
             ["jpg"; "jpeg"; "png"]))
     ∨ (∃ ext w h,
          ext ∈ ["jpg"; "jpeg"; "png"]
          ∧ FS.isdir fs folder = true
          ∧ FS.resolve fs (img_path folder (photo_key i) ext)
            = Some (File (Some (w, h)))
          ∧ w ≠ 0%Z
          ∧ x = sized (img_path folder (photo_key i) ext) w h
          ∧ warnings ev = [])).
Proof.
  destruct (FS.isdir fs folder) eqn:Hd.
  - destruct (find_photo fs folder (photo_key i) ["jpg"; "jpeg"; "png"] out)
      as [[[x|e] ev1] o1] eqn:Hf.
    + destruct (find_photo_inv _ _ _ _ _ _ _ _ Hf) as [-> Hcases].
      rewrite (fill_slot_dir _ _ _ _ _ _ _ _ Hd Hf).
      intros [= <- <- <-]. split; [done|]. exists x. split; [done|].
      destruct Hcases as [(-> & -> & Hall)|
                          (pre & ext & post & w & h & Hs & Hp & Hr & Hw & -> & ->)].
      * left. by split_and!; [..|right].
      * right. exists ext, w, h. split_and!; try done.
        -- rewrite Hs. apply elem_of_app. right. by left.
        -- change (warnings (OsIsDir folder :: ?l)) with (warnings l).
           by rewrite !warnings_app, warnings_isfile.
    + unfold fill_slot. rewrite bind_unfold, os_isdir_run, Hd.
      cbv beta iota. rewrite bind_unfold, Hf. done.
  - rewrite fill_slot_nodir by done. intros [= <- <- <-].
    split; [done|]. exists blank. split; [done|]. left. by split_and!; [..|left].
Qed.

Lemma fill_slot_starts fs app_no folder i context out :
  ∃ ev, (fill_slot fs app_no folder i context out).1.2 = OsIsDir folder :: ev.
Proof.
  unfold fill_slot. rewrite bind_unfold, os_isdir_run. cbv beta iota.
  match goal with
  | |- context [bind ?m ?k out] => destruct (bind m k out) as [[[?|?] ?] ?]
  end; simpl; eauto.
Qed.

Lemma stateless_find_photo fs folder key exts :
  stateless (find_photo (document:=document) fs folder key exts).
Proof.
  induction exts as [|ext exts IH]; simpl; [apply stateless_ret|].
  apply stateless_bind.
  { apply stateless_bind; [apply stateless_emit|intros; apply stateless_ret]. }
  intros [|]; [|done].
  apply stateless_bind.
  { apply stateless_bind; [apply stateless_emit|].
    intros _. repeat case_match; auto using @stateless_ret, @stateless_raise. }
  intros [w h]. apply stateless_bind.
  { unfold truediv. case_match; auto using @stateless_ret, @stateless_raise. }
  intros; apply stateless_ret.
Qed.

Lemma stateless_fill_slot fs app_no folder i context :
  stateless (fill_slot (document:=document) fs app_no folder i context).
Proof.
  unfold fill_slot. apply stateless_bind.
  { apply stateless_bind; [apply stateless_emit|intros; apply stateless_ret]. }
  intros b. apply stateless_bind.
  { destruct b; [apply stateless_find_photo|apply stateless_ret]. }
  intros x. apply stateless_bind; [|intros; apply stateless_ret].
  case_match; [apply stateless_emit|apply stateless_ret].
Qed.

End FillSlot.

(** ** The context of one row *)

Section Row.

Context {document : Type}.
Implicit Types (fs : node) (out : gmap string document)
  (context : gmap string pyval) (row : list (string * scalar)).

Lemma loc_series (cols : list string) (cells : list scalar) (col : string) :
  col ∈ cols → is_Some (loc (series cols cells) col).
Proof.
  revert cells. induction cols as [|c cols IH]; intros cells Hin.
  - by apply elem_of_nil in Hin.
  - destruct (decide (c = col)) as [->|Hne].
    + destruct cells; simpl; rewrite String.eqb_refl; eauto.
    + apply elem_of_cons in Hin as [->|Hin]; [done|].
      apply String.eqb_neq in Hne.
      destruct cells; simpl; rewrite Hne; auto.
Qed.

Lemma loc_absent (cols : list string) (cells : list scalar) (col : string) :
  col ∉ cols → loc (series cols cells) col = None.
Proof.
  revert cells. induction cols as [|c cols IH]; intros cells Hin; [done|].
  apply not_elem_of_cons in Hin as [Hne Hin].
  assert (String.eqb c col = false) as Hc by (apply String.eqb_neq; congruence).
  destruct cells; simpl; rewrite Hc; auto.
Qed.

(** The comprehension never raises on the columns of its own row, calls
    nothing, and binds exactly the columns that are not photo columns. *)
Lemma build_context_run row (cols : list string) context out :
  (∀ col, col ∈ cols → is_Some (loc row col)) →
  ∃ context',
    build_context row cols context out = (Ok context', [], out)
    ∧ (∀ k, k ∈ cols → is_photo_column k = false →
            context' !! k = PScalar <$> loc row k)
    ∧ (∀ k, ¬ (k ∈ cols ∧ is_photo_column k = false) →
            context' !! k = context !! k).
Proof.
  revert context. induction cols as [|col cols IH]; intros context Hloc.
  - exists context. split_and!; [done| |done].
    intros k Hk. by apply elem_of_nil in Hk.
  - simpl. destruct (is_photo_column col) eqn:Hp; simpl.
    + destruct (IH context) as (c' & Hrun & Hin & Hout).
      { intros c Hc. apply Hloc. by right. }
      exists c'. split_and!; [done| |].
      * intros k Hk Hkp. apply elem_of_cons in Hk as [->|Hk]; [congruence|auto].
      * intros k Hk. apply Hout. intros [Hk1 Hk2]. apply Hk. split; [by right|done].
    + destruct (Hloc col) as [v Hv]; [by left|]. rewrite Hv.
      destruct (IH (<[col := PScalar v]> context)) as (c' & Hrun & Hin & Hout).
      { intros c Hc. apply Hloc. by right. }
      exists c'. split_and!; [done| |].
      * intros k Hk Hkp. destruct (decide (k ∈ cols)) as [Hk'|Hk']; [auto|].
        apply elem_of_cons in Hk as [->|Hk]; [|done].
        rewrite Hout by (intros [??]; done).
        by rewrite lookup_insert_eq, Hv.
      * intros k Hk. rewrite Hout.
        -- apply lookup_insert_ne. intros ->. apply Hk. split; [by left|done].
        -- intros [Hk1 Hk2]. apply Hk. split; [by right|done].
Qed.

(** The comprehension reads no cell of a photo column. *)
Lemma build_context_ext row row' (cols : list string) context out :
  (∀ col, is_photo_column col = false → loc row' col = loc row col) →
  build_context row' cols context out = build_context row cols context out.
Proof.
  intros Hext. revert context. induction cols as [|col cols IH]; intros context.
  - done.
  - simpl. destruct (is_photo_column col) eqn:Hp; simpl; [apply IH|].
    rewrite (Hext col Hp). destruct (loc row col); [apply IH|done].
Qed.

Lemma stateless_build_context row (cols : list string) context :
  stateless (build_context (document:=document) row cols context).
Proof.
  revert context. induction cols as [|col cols IH]; intros context; simpl.
  - apply stateless_ret.
  - repeat case_match; auto using @stateless_raise.
Qed.

Lemma stateless_row_context fs photos_dir (cols : list string) row :
  stateless (row_context (document:=document) fs photos_dir cols row).
Proof.
  unfold row_context. apply stateless_bind; [apply stateless_build_context|].
  intros c. apply stateless_for_each. intros. apply stateless_fill_slot.
Qed.

Lemma app_no_of_ext row row' :
  (∀ col, is_photo_column col = false → loc row' col = loc row col) →
  app_no_of row' = app_no_of row.
Proof. intros H. unfold app_no_of, row_get. by rewrite H. Qed.

Lemma row_context_ext fs photos_dir (cols : list string) row row' out :
  (∀ col, is_photo_column col = false → loc row' col = loc row col) →
  row_context fs photos_dir cols row' out = row_context fs photos_dir cols row out.
Proof.
  intros H. unfold row_context. rewrite !bind_unfold.
  rewrite (build_context_ext row row') by done.
  by rewrite (app_no_of_ext row row').
Qed.

Lemma photo_key_1 : photo_key 1 = "photo1".
Proof. reflexivity. Qed.
Lemma photo_key_2 : photo_key 2 = "photo2".
Proof. reflexivity. Qed.
Lemma photo_key_3 : photo_key 3 = "photo3".
Proof. reflexivity. Qed.

(** What a row whose context was built has done. *)
Lemma row_context_inv fs photos_dir (cols : list string) (cells : list scalar)
    out context ev out' :
  let row := series cols cells in
  let app_no := app_no_of row in
  let folder := PosixPath.join photos_dir app_no in
  row_context fs photos_dir cols row out = (Ok context, ev, out') →
  out' = out ∧
  ∃ c0 x1 x2 x3 ev1 ev2 ev3,
    build_context row cols ∅ out = (Ok c0, [], out)
    ∧ fill_slot fs app_no folder 1 c0 out
      = (Ok (<["photo1" := x1]> c0), ev1, out)
    ∧ fill_slot fs app_no folder 2 (<["photo1" := x1]> c0) out
      = (Ok (<["photo2" := x2]> (<["photo1" := x1]> c0)), ev2, out)
    ∧ fill_slot fs app_no folder 3 (<["photo2" := x2]> (<["photo1" := x1]> c0)) out
      = (Ok context, ev3, out)
    ∧ context = <["photo3" := x3]> (<["photo2" := x2]> (<["photo1" := x1]> c0))
    ∧ ev = ev1 ++ ev2 ++ ev3
    ∧ slot_bound fs app_no folder 1 x1 (warnings ev1)
    ∧ slot_bound fs app_no folder 2 x2 (warnings ev2)
    ∧ slot_bound fs app_no folder 3 x3 (warnings ev3).
Proof.
  intros row app_no folder. unfold row_context. rewrite bind_unfold.
  destruct (build_context_run row cols ∅ out) as (c0 & Hb & _ & _).
  { intros col Hcol. by apply loc_series. }
  rewrite Hb. cbv beta iota. fold row app_no folder.
  unfold for_each. rewrite bind_unfold.
  destruct (fill_slot fs app_no folder 1 c0 out) as [[[c1|?] ev1] o1] eqn:H1;
    [|by destruct (_ : _ * _ * _) as [[??]?]].
  destruct (fill_slot_inv _ _ _ _ _ _ _ _ _ H1) as (-> & x1 & -> & Hs1).
  rewrite bind_unfold.
  destruct (fill_slot fs app_no folder 2 _ out) as [[[c2|?] ev2] o2] eqn:H2;
    [|by destruct (_ : _ * _ * _) as [[??]?]].
  destruct (fill_slot_inv _ _ _ _ _ _ _ _ _ H2) as (-> & x2 & -> & Hs2).
  rewrite bind_unfold.
  destruct (fill_slot fs app_no folder 3 _ out) as [[[c3|?] ev3] o3] eqn:H3;
    [|by destruct (_ : _ * _ * _) as [[??]?]].
  destruct (fill_slot_inv _ _ _ _ _ _ _ _ _ H3) as (-> & x3 & -> & Hs3).
  unfold ret. intros [= <- <- <-]. split; [done|].
  exists c0, x1, x2, x3, ev1, ev2, ev3.
  rewrite photo_key_1 in *. rewrite photo_key_2 in *. rewrite photo_key_3 in *.
  rewrite app_nil_r. split_and!; done.
Qed.

End Row.

(** ** Names of the documents *)

Section Names.

Lemma length_app_str (a b : string) :
  String.length (a +:+ b) = (String.length a + String.length b)%nat.
Proof.
  induction a as [|c a IH]; [done|]. rewrite app_cons_str. simpl. by rewrite IH.
Qed.

Lemma app_inj_r_str (a b t : string) : a +:+ t = b +:+ t → a = b.
Proof.
  revert b. induction a as [|c a IH]; intros [|d b] H.
  - done.
  - apply (f_equal String.length) in H.
    rewrite app_nil_l_str, app_cons_str in H. simpl in H.
    rewrite length_app_str in H. lia.
  - apply (f_equal String.length) in H.
    rewrite app_nil_l_str, app_cons_str in H. simpl in H.
    rewrite length_app_str in H. lia.
  - rewrite !app_cons_str in H. injection H as -> H. f_equal. by apply IH.
Qed.

Lemma out_name_inj (a b : nat) : out_name a = out_name b → a = b.
Proof.
  unfold out_name. intros H.
  apply (inj (String.app "filled_form_")) in H.
  apply app_inj_r_str in H. apply (inj pretty) in H. lia.
Qed.

End Names.

(** ** Saving the documents *)

Section Loop.

Context {document : Type} (tpl_render : gmap string pyval → Res document).
Implicit Types (fs : node) (out : gmap string document)
  (context : gmap string pyval) (row : list (string * scalar)).

Lemma render_run context out :
  render tpl_render context out
  = (tpl_render context, [TplRender context], out).
Proof.
  unfold render. rewrite bind_unfold. unfold emit.
  by destruct (tpl_render context).
Qed.

(** A row that goes through once goes through at every position and on
    every state of [outputs_dir], with the same calls. *)
Lemma process_row_ok fs photos_dir (cols : list string) idx row :
  is_ok (process_row tpl_render fs photos_dir cols idx row ∅).1.1 = true →
  ∃ context ev doc,
    (∀ out, row_context fs photos_dir cols row out = (Ok context, ev, out))
    ∧ tpl_render context = Ok doc
    ∧ ∀ idx' out,
        process_row tpl_render fs photos_dir cols idx' row out
        = (Ok tt, ev ++ [TplRender context; TplSave (out_name idx')],
           <[out_name idx' := doc]> out).
Proof.
  unfold process_row. rewrite bind_unfold.
  pose proof (stateless_row_context (document:=document) fs photos_dir cols row)
    as Hst.
  destruct (row_context fs photos_dir cols row ∅) as [[[context|e] ev] o] eqn:Hrc;
    [|done].
  rewrite bind_unfold, render_run.
  destruct (tpl_render context) as [doc|e] eqn:Hr; [|done].
  intros _. exists context, ev, doc. split_and!; [|done|].
  - intros out. by rewrite Hst, Hrc.
  - intros idx' out. rewrite bind_unfold, Hst, Hrc. simpl.
    rewrite bind_unfold, render_run, Hr. unfold save. done.
Qed.

Lemma saved_docs_lookup (docs : list document) i out k doc :
  docs !! k = Some doc → saved_docs i docs out !! out_name (i + k) = Some doc.
Proof.
  revert i out k. induction docs as [|d docs IH]; intros i out k; [done|].
  unfold saved_docs. simpl. fold (saved_docs (S i) docs (<[out_name i := d]> out)).
  destruct k as [|k]; simpl.
  - intros [= ->]. rewrite Nat.add_0_r.
    clear IH. generalize (S i) (Nat.lt_succ_diag_r i).
    revert out. induction docs as [|d' docs IH]; intros out j Hj.
    + apply lookup_insert_eq.
    + unfold saved_docs. simpl.
      fold (saved_docs (S j) docs (<[out_name j := d']> (<[out_name i := doc]> out))).
      rewrite insert_insert_ne by (intros ?%out_name_inj; lia).
      apply IH. lia.
  - intros Hk. replace (i + S k)%nat with (S i + k)%nat by lia. by apply IH.
Qed.

Lemma saved_docs_other (docs : list document) i out name :
  (∀ k, (k < length docs)%nat → name ≠ out_name (i + k)) →
  saved_docs i docs out !! name = out !! name.
Proof.
  revert i out. induction docs as [|d docs IH]; intros i out Hn; [done|].
  unfold saved_docs. simpl. fold (saved_docs (S i) docs (<[out_name i := d]> out)).
  rewrite IH.
  - apply lookup_insert_ne. intros <-. apply (Hn 0%nat); simpl; [lia|].
    by rewrite Nat.add_0_r.
  - intros k Hk. replace (S i + k)%nat with (i + S k)%nat by lia.
    apply Hn. simpl. lia.
Qed.

Lemma saved_docs_size (docs : list document) i :
  size (saved_docs i docs ∅) = length docs.
Proof.
  assert (∀ out,
    (∀ k, (k < length docs)%nat → out !! out_name (i + k) = None) →
    size (saved_docs i docs out) = (size out + length docs)%nat) as H.
  { revert i. induction docs as [|d docs IH]; intros i out Hfresh.
    - unfold saved_docs. simpl. lia.
    - unfold saved_docs. simpl.
      fold (saved_docs (S i) docs (<[out_name i := d]> out)).
      rewrite IH.
      + rewrite map_size_insert_None; [simpl; lia|].
        specialize (Hfresh 0%nat). rewrite Nat.add_0_r in Hfresh.
        apply Hfresh. simpl. lia.
      + intros k Hk. rewrite lookup_insert_ne by (intros ?%out_name_inj; lia).
        replace (S i + k)%nat with (i + S k)%nat by lia.
        apply Hfresh. simpl. lia. }
  rewrite H; [by rewrite map_size_empty|]. intros. apply lookup_empty.
Qed.

Lemma saved_docs_dom (docs : list document) i name :
  is_Some (saved_docs i docs ∅ !! name)
  → ∃ k, (k < length docs)%nat ∧ name = out_name (i + k).
Proof.
  intros Hs.
  destruct (decide (Exists (λ k, name = out_name (i + k)) (seq 0 (length docs))))
    as [He|Hn].
  - apply Exists_exists in He as (k & Hk & ->).
    apply elem_of_seq in Hk. exists k. split; [lia|done].
  - rewrite saved_docs_other, lookup_empty in Hs; [by destruct Hs|].
    intros k Hk ->. apply Hn, Exists_exists. exists k.
    split; [|done]. apply elem_of_seq. lia.
Qed.

End Loop.

(** ** The calls of a row *)

Section Events.

Context {document : Type}.
Implicit Types (fs : node) (out : gmap string document)
  (context : gmap string pyval) (row : list (string * scalar)).

Lemma find_photo_events fs folder key exts out :
  Forall (slot_event folder) (find_photo fs folder key exts out).1.2.
Proof.
  induction exts as [|ext exts IH]; [by constructor|].
  destruct (FS.isfile fs (img_path folder key ext)) eqn:Hf.
  - simpl. rewrite bind_unfold, os_isfile_run, Hf. cbv beta iota.
    unfold pil_size. rewrite !bind_unfold. unfold emit at 1.
    assert (slot_event (document:=document) folder
              (OsIsFile (img_path folder key ext))) as H1 by (simpl; eauto).
    assert (slot_event (document:=document) folder
              (PilOpen (img_path folder key ext))) as H2 by (simpl; eauto).
    destruct (FS.resolve fs (img_path folder key ext)) as [[[[w h]|]|]|];
      simpl; try (by repeat constructor).
    unfold truediv. destruct (w =? 0)%Z; simpl; by repeat constructor.
  - rewrite find_photo_miss by done. simpl. constructor; [|done].
    simpl. eauto.
Qed.

Lemma fill_slot_events fs app_no folder i context out :
  Forall (slot_event folder) (fill_slot fs app_no folder i context out).1.2.
Proof.
  unfold fill_slot. rewrite bind_unfold, os_isdir_run. cbv beta iota.
  rewrite bind_unfold.
  destruct (FS.isdir fs folder).
  - pose proof (find_photo_events fs folder (photo_key i) ["jpg"; "jpeg"; "png"] out)
      as Hf.
    destruct (find_photo fs folder (photo_key i) ["jpg"; "jpeg"; "png"] out)
      as [[[x|e] ev] o]; simpl in *.
    + rewrite bind_unfold. destruct (truthy x); simpl.
      * constructor; [done|]. by rewrite app_nil_r.
      * constructor; [done|]. apply Forall_app. split; [done|].
        by repeat constructor.
    + by constructor.
  - simpl. by repeat constructor.
Qed.

Lemma row_context_events fs photos_dir (cols : list string) (cells : list scalar) out :
  let row := series cols cells in
  Forall (slot_event (PosixPath.join photos_dir (app_no_of row)))
    (row_context fs photos_dir cols row out).1.2.
Proof.
  intros row. unfold row_context. rewrite bind_unfold.
  destruct (build_context_run (document:=document) row cols ∅ out)
    as (c0 & Hb & _ & _).
  { intros col Hcol. by apply loc_series. }
  rewrite Hb. cbv beta iota.
  set (folder := PosixPath.join photos_dir (app_no_of row)).
  set (app_no := app_no_of row).
  assert (∀ (l : list Z) c (o : gmap string document),
    Forall (slot_event folder)
      (for_each l (fill_slot fs app_no folder) c o).1.2) as H.
  { induction l as [|i l IH]; intros c o; [by constructor|].
    simpl. rewrite bind_unfold.
    pose proof (fill_slot_events fs app_no folder i c o) as Hs.
    destruct (fill_slot fs app_no folder i c o) as [[[c'|e] ev] o']; simpl in *;
      [|done].
    specialize (IH c' o').
    destruct (for_each l (fill_slot fs app_no folder) c' o') as [[r ev'] o''].
    simpl in *. by apply Forall_app. }
  specialize (H [1; 2; 3]%Z c0 out).
  by destruct (for_each _ _ c0 out) as [[??]?].
Qed.

Lemma slot_events_saved folder (ev : list (event document)) :
  Forall (slot_event folder) ev →
  saved ev = [] ∧ rendered ev = [] ∧ downloads ev = [].
Proof.
  induction 1 as [|e ev He _ (IH1 & IH2 & IH3)]; [done|].
  destruct e; simpl in He; try done; by split_and!.
Qed.

Lemma saved_app (ev1 ev2 : list (event document)) :
  saved (ev1 ++ ev2) = saved ev1 ++ saved ev2.
Proof. apply omap_app. Qed.

Lemma rendered_app (ev1 ev2 : list (event document)) :
  rendered (ev1 ++ ev2) = rendered ev1 ++ rendered ev2.
Proof. apply omap_app. Qed.

Lemma downloads_app (ev1 ev2 : list (event document)) :
  downloads (ev1 ++ ev2) = downloads ev1 ++ downloads ev2.
Proof. apply omap_app. Qed.

End Events.

(** ** The loop and the archive *)

Section Run.

Context {document : Type} (tpl_render : gmap string pyval → Res document).
Implicit Types (fs : node) (out : gmap string document)
  (context : gmap string pyval) (row : list (string * scalar)).

Lemma loop_run fs photos_dir (cols : list string)
    (rows : list (list (string * scalar))) i out :
  forallb (λ r, is_ok (process_row tpl_render fs photos_dir cols r.1 r.2 ∅).1.1)
    (enumerate_from i rows) = true →
  ∃ results,
    rows_done tpl_render fs photos_dir cols rows results
    ∧ for_each (enumerate_from i rows)
        (λ r _, process_row tpl_render fs photos_dir cols r.1 r.2) tt out
      = (Ok tt, loop_trace i results, saved_docs i results.*2 out).
Proof.
  revert i out. induction rows as [|row rows IH]; intros i out Hok.
  - exists []. split; [constructor|done].
  - simpl in Hok. apply andb_prop in Hok as [Hrow Hrest].
    destruct (process_row_ok tpl_render _ _ _ _ _ Hrow)
      as (c & ev & doc & Hc & Hr & Hp).
    destruct (IH (S i) (<[out_name i := doc]> out) Hrest) as (res & Hdone & Hrun).
    exists ((c, ev, doc) :: res). split.
    + constructor; [done|exact Hdone].
    + simpl. rewrite bind_unfold. simpl. rewrite Hp, Hrun. simpl.
      by rewrite <- app_assoc.
Qed.

Lemma zip_write_all (names : list string) (zipf : list (string * document)) out :
  (∀ n, n ∈ names → is_Some (out !! n)) →
  ∃ l, for_each names zip_write zipf out = (Ok (zipf ++ l), [], out)
       ∧ l.*1 = names
       ∧ ∀ n d, (n, d) ∈ l → out !! n = Some d.
Proof.
  revert zipf. induction names as [|n names IH]; intros zipf Hin.
  - exists []. rewrite app_nil_r. split_and!; [done..|].
    intros ?? H. by apply elem_of_nil in H.
  - destruct (Hin n) as [d Hd]; [by left|].
    destruct (IH (zipf ++ [(n, d)])) as (l & Hrun & Hl & Hlook).
    { intros m Hm. apply Hin. by right. }
    exists ((n, d) :: l). split_and!.
    + simpl. rewrite bind_unfold. unfold zip_write at 1. rewrite Hd.
      rewrite Hrun. by rewrite <- app_assoc.
    + rewrite fmap_cons, Hl. done.
    + intros m e Hme. apply elem_of_cons in Hme as [[= -> ->]|Hme]; auto.
Qed.

(** A run in which every row goes through ends with the download
    button; the archive behind it lists [outputs_dir] in sorted order,
    each name with the document saved under it. *)
Lemma main_run (df : DataFrame) fs tmpdir out :
  forallb (λ r, is_ok (process_row tpl_render fs (PosixPath.join tmpdir "photos")
                         (columns df) r.1 r.2 ∅).1.1) (iterrows df) = true →
  ∃ results zipf,
    rows_done tpl_render fs (PosixPath.join tmpdir "photos") (columns df)
      (series (columns df) <$> data df) results
    ∧ main tpl_render true (Some (Ok df)) (Some (Ok fs)) tmpdir out
      = (Ok tt, loop_trace 0 results ++ [StDownloadButton zipf], ∅)
    ∧ zipf.*1 = merge_sort String.le (map_to_list (saved_docs 0 results.*2 ∅)).*1
    ∧ ∀ n d, (n, d) ∈ zipf → saved_docs 0 results.*2 ∅ !! n = Some d.
Proof.
  intros Hok. destruct (loop_run _ _ _ _ _ ∅ Hok) as (results & Hdone & Hloop).
  set (outs := saved_docs 0 results.*2 ∅) in *.
  destruct (zip_write_all (merge_sort String.le (map_to_list outs).*1) [] outs)
    as (zipf & Hzip & Hnames & Hlook).
  { intros n Hn. rewrite merge_sort_Permutation in Hn.
    apply list_elem_of_fmap in Hn as ([n' d] & -> & Hnd).
    apply elem_of_map_to_list in Hnd. eauto. }
  exists results, zipf. split_and!; [done| |done|done].
  unfold main. rewrite bind_unfold. unfold ret at 1. cbv beta iota.
  unfold with_tempdir. rewrite bind_unfold. unfold ret at 1. cbv beta iota.
  rewrite bind_unfold. unfold iterrows in Hloop. unfold iterrows.
  rewrite Hloop. cbv beta iota.
  rewrite bind_unfold. unfold os_listdir at 1. cbv beta iota.
  rewrite bind_unfold. fold outs. rewrite Hzip. cbv beta iota.
  unfold st_download_button, emit. done.
Qed.

End Run.

(** ** Paths *)

Section Paths.

Import PyStr PosixPath.

Lemma last_char_app (a b : string) :
  b ≠ "" → last_char (a +:+ b) = last_char b.
Proof.
  intros Hb. induction a as [|c a IH]; [done|].
  rewrite app_cons_str. simpl. rewrite IH.
  destruct (a +:+ b) eqn:Hab; [|done].
  destruct a; [by rewrite app_nil_l_str in Hab|by rewrite app_cons_str in Hab].
Qed.

Lemma startswith_empty (p : string) : startswith "" p = true → p = "".
Proof. by destruct p. Qed.

Lemma join_empty (a : string) :
  a ≠ "" → endswith_slash a = false → join a "" = a +:+ "/".
Proof.
  intros Ha Hs. unfold join. simpl.
  apply String.eqb_neq in Ha. rewrite Ha, Hs. simpl.
  by rewrite app_nil_r_str.
Qed.

Lemma endswith_slash_app_slash (a : string) : endswith_slash (a +:+ "/") = true.
Proof. unfold endswith_slash. by rewrite last_char_app. Qed.

(** Joining first with the empty string changes nothing for what is
    joined next. *)
Lemma join_join_empty (a b : string) : join (join a "") b = join a b.
Proof.
  destruct (decide (a = "")) as [->|Ha]; [done|].
  destruct (endswith_slash a) eqn:Hs.
  - unfold join at 2. simpl. rewrite Hs, orb_true_r. by rewrite app_nil_r_str.
  - rewrite join_empty by done. unfold join.
    destruct (startswith b "/"); [done|].
    rewrite endswith_slash_app_slash, orb_true_r, Hs.
    apply String.eqb_neq in Ha. rewrite Ha. simpl. by rewrite app_assoc_str.
Qed.

Lemma join_photos (tmpdir : string) :
  join tmpdir "photos" ≠ "" ∧ endswith_slash (join tmpdir "photos") = false.
Proof.
  unfold join. simpl.
  destruct (String.eqb tmpdir "" || endswith_slash tmpdir).
  - split.
    + intros H. apply (f_equal String.length) in H.
      rewrite length_app_str in H. simpl in H. lia.
    + unfold endswith_slash. by rewrite last_char_app.
  - split.
    + intros H. apply (f_equal String.length) in H.
      rewrite !length_app_str in H. simpl in H. lia.
    + unfold endswith_slash. rewrite last_char_app by done.
      by rewrite (last_char_app "/" "photos").
Qed.

Lemma components_nonempty (p : string) : components p ≠ [].
Proof.
  destruct p as [|c p]; [done|]. simpl.
  destruct (Ascii.eqb c "/"); [done|]. by destruct (components p).
Qed.

Lemma components_app_slash (p : string) :
  components (p +:+ "/") = components p ++ [""].
Proof.
  induction p as [|c p IH]; [done|].
  rewrite app_cons_str. simpl. rewrite IH.
  destruct (Ascii.eqb c "/"); [done|].
  pose proof (components_nonempty p). by destruct (components p).
Qed.

Lemma contains_app (c : ascii) (a b : string) :
  contains c (a +:+ b) = contains c a || contains c b.
Proof.
  induction a as [|d a IH]; [done|].
  rewrite app_cons_str. simpl. rewrite IH. by destruct (Ascii.eqb c d).
Qed.

(** A trailing slash asks for a directory and changes nothing else. *)
Lemma walk_app_empty (comps : list string) (up : list node) (cur : node) :
  FS.walk up cur (comps ++ [""])
  = match FS.walk up cur comps with
    | Some (Dir entries) => Some (Dir entries)
    | _ => None
    end.
Proof.
  revert up cur. induction comps as [|c comps IH]; intros up cur.
  - by destruct cur.
  - simpl. destruct cur as [|entries]; [done|].
    destruct (String.eqb c "" || String.eqb c "."); [apply IH|].
    destruct (String.eqb c "..").
    + destruct up; apply IH.
    + destruct (FS.entry c entries); [apply IH|done].
Qed.

Lemma isdir_slash (fs : node) (p : string) :
  p ≠ "" → FS.isdir fs (p +:+ "/") = FS.isdir fs p.
Proof.
  intros Hp. unfold FS.isdir, FS.resolve.
  rewrite contains_app, components_app_slash, walk_app_empty.
  assert (String.eqb (p +:+ "/") "" = false) as ->.
  { apply String.eqb_neq. intros H. apply (f_equal String.length) in H.
    rewrite length_app_str in H. simpl in H. lia. }
  apply String.eqb_neq in Hp. rewrite Hp. simpl. rewrite orb_false_r.
  destruct (contains "000" p); [done|].
  by destruct (FS.walk [] fs (components p)) as [[|]|].
Qed.

(** The folder of the empty key is the photo directory itself. *)
Lemma isdir_join_empty (fs : node) (tmpdir : string) :
  FS.isdir fs (join (join tmpdir "photos") "")
  = FS.isdir fs (join tmpdir "photos").
Proof.
  destruct (join_photos tmpdir) as [Hne Hs].
  rewrite join_empty by done. by apply isdir_slash.
Qed.

Lemma img_path_join_empty (a key ext : string) :
  img_path (join a "") key ext = img_path a key ext.
Proof. apply join_join_empty. Qed.

End Paths.

(** * The claims *)

(** ** Claims about one slot *)

Section SlotClaims.

Context {document : Type} (tpl_render : gmap string pyval → Res document).
Implicit Types (fs : node) (out : gmap string document)
  (context : gmap string pyval) (row : list (string * scalar)).

Lemma find_photo_warnings fs folder key exts out :
  warnings (find_photo fs folder key exts out).1.2 = [].
Proof.
  induction exts as [|ext exts IH]; [done|].
  destruct (FS.isfile fs (img_path folder key ext)) eqn:Hf.
  - simpl. rewrite bind_unfold, os_isfile_run, Hf. cbv beta iota.
    unfold pil_size. rewrite !bind_unfold. unfold emit at 1.
    destruct (FS.resolve fs (img_path folder key ext)) as [[[[w h]|]|]|];
      simpl; try done.
    unfold truediv. by destruct (w =? 0)%Z.
  - rewrite find_photo_miss by done. done.
Qed.

Lemma fill_slot_warnings fs app_no folder i context out :
  warnings (fill_slot fs app_no folder i context out).1.2 = []
  ∨ warnings (fill_slot fs app_no folder i context out).1.2
    = [missing_warning (photo_key i) app_no].
Proof.
  unfold fill_slot. rewrite bind_unfold, os_isdir_run. cbv beta iota.
  rewrite bind_unfold. destruct (FS.isdir fs folder).
  - pose proof (find_photo_warnings fs folder (photo_key i) ["jpg"; "jpeg"; "png"] out)
      as Hw.
    destruct (find_photo fs folder (photo_key i) ["jpg"; "jpeg"; "png"] out)
      as [[[x|e] ev] o]; simpl in Hw |- *.
    + rewrite bind_unfold. destruct (truthy x); simpl.
      * left. by rewrite warnings_app, Hw.
      * right. by rewrite warnings_app, Hw.
    + by left.
  - by right.
Qed.

(** C2: for every slot, when the folder of the record holds several of
    the candidates [photoN.jpg], [photoN.jpeg], [photoN.png], the one
    whose extension comes first in the order jpg, jpeg, png is taken:
    with [ext] the first extension whose candidate is a file (those in
    [pre] before it are not, those in [post] after it may or may not be),
    the slot is bound to the image at the candidate of [ext], and the
    search has probed the candidates of [pre] and of [ext] and no
    other. *)
Theorem C2_extension_preference fs app_no folder (i : Z) context out
    (pre : list string) (ext : string) (post : list string) (w h : Z) :
  FS.isdir fs folder = true →
  ["jpg"; "jpeg"; "png"] = pre ++ ext :: post →
  Forall (λ e, FS.isfile fs (img_path folder (photo_key i) e) = false) pre →
  FS.resolve fs (img_path folder (photo_key i) ext) = Some (File (Some (w, h))) →
  w ≠ 0%Z →
  fill_slot fs app_no folder i context out
  = (Ok (<[photo_key i :=
             PImage {| image_descriptor := img_path folder (photo_key i) ext;
                       width := Inches PHOTO_WIDTH_INCHES;
                       height := inject_Z (Inches PHOTO_WIDTH_INCHES)
                                 * (inject_Z h / inject_Z w) |}]> context),
     OsIsDir folder
     :: (OsIsFile <$> (img_path folder (photo_key i) <$> pre ++ [ext]))
     ++ [PilOpen (img_path folder (photo_key i) ext)],
     out).
Proof. apply fill_slot_first. Qed.








(** C5: every resolved photo comes from an image file of some width [w]
    and height [h] with [w] not zero; its display width is the fixed
    target width of two inches (1828800 EMU), its display height is that
    width times [h / w], and so display height over display width is
    [h / w].  The arithmetic is the exact one of the rationals: the
    rounding of floating point is left out, as in the claim. *)
Theorem C5_aspect_ratio fs (folder key : string) (exts : list string)
    out (im : InlineImage) (ev : list (event document)) out' :
  find_photo fs folder key exts out = (Ok (PImage im), ev, out') →
  ∃ w h : Z,
    FS.resolve fs (image_descriptor im) = Some (File (Some (w, h)))
    ∧ w ≠ 0%Z
    ∧ width im = Inches PHOTO_WIDTH_INCHES
    ∧ width im = 1828800%Z
    ∧ (height im == inject_Z (width im) * (inject_Z h / inject_Z w))%Q
    ∧ (height im / inject_Z (width im) == inject_Z h / inject_Z w)%Q.
Proof.
  intros Hf. apply find_photo_inv in Hf as [_ [(Hb & _)|Hhit]]; [done|].
  destruct Hhit as (pre & ext & post & w & h & _ & _ & Hr & Hw & Him & _).
  injection Him as ->. exists w, h. simpl. split_and!; try done.
  rewrite Qmult_comm. apply Qdiv_mult_l. done.
Qed.

(** C8, as the code has it: a slot gives at most one warning, and its
    line is [Missing `photoN.*` in folder `key/`] with the slot number
    and the trimmed key between back quotes; a slot left unresolved
    gives exactly this one line. *)
Theorem C8_warning_line fs app_no folder (i : Z) context out :
  let line := "Missing `photo" +:+ pretty i +:+ ".*` in folder `"
              +:+ app_no +:+ "/`" in
  (∀ msg, msg ∈ warnings (fill_slot fs app_no folder i context out).1.2 →
          msg = line)
  ∧ (∀ context' ev out',
       fill_slot fs app_no folder i context out = (Ok context', ev, out') →
       context' !! photo_key i = Some blank →
       warnings ev = [line]).
Proof.
  intros line.
  assert (missing_warning (photo_key i) app_no = line) as Hline by reflexivity.
  split.
  - intros msg Hmsg.
    destruct (fill_slot_warnings fs app_no folder i context out) as [Hw|Hw];
      rewrite Hw in Hmsg.
    + by apply elem_of_nil in Hmsg.
    + apply list_elem_of_singleton in Hmsg. by rewrite Hmsg.
  - intros context' ev out' Hrun Hblank.
    apply fill_slot_inv in Hrun as (_ & x & -> & [(-> & Hw & _)|Himg]).
    + by rewrite Hw.
    + destruct Himg as (ext & w & h & _ & _ & _ & _ & -> & _).
      by rewrite lookup_insert_eq in Hblank.
Qed.

End SlotClaims.

(** ** Claims about one row *)

Section RowClaims.

Context {document : Type}.
Implicit Types (fs : node) (out : gmap string document)
  (context : gmap string pyval) (row : list (string * scalar)).

Lemma row_context_starts fs photos_dir (cols : list string) (cells : list scalar) out :
  let row := series cols cells in
  ∃ ev, (row_context fs photos_dir cols row out).1.2
        = OsIsDir (PosixPath.join photos_dir (app_no_of row)) :: ev.
Proof.
  intros row. unfold row_context. rewrite bind_unfold.
  destruct (build_context_run (document:=document) row cols ∅ out)
    as (c0 & Hb & _ & _).
  { intros col Hcol. by apply loc_series. }
  rewrite Hb. cbv beta iota. unfold for_each. rewrite bind_unfold.
  destruct (fill_slot_starts fs (app_no_of row)
              (PosixPath.join photos_dir (app_no_of row)) 1 c0 out) as [ev Hev].
  destruct (fill_slot fs (app_no_of row) _ 1 c0 out) as [[[c1|e] ev1] o1];
    simpl in Hev; subst ev1.
  - destruct (bind _ _ o1) as [[r2 ev2] o2]. simpl. eauto.
  - simpl. eauto.
Qed.

Lemma app_no_absent (cols : list string) (cells : list scalar) :
  "Application_Number" ∉ cols → app_no_of (series cols cells) = "".
Proof.
  intros H. unfold app_no_of, row_get. by rewrite loc_absent.
Qed.

Lemma app_no_whitespace row (s : string) :
  row_get row "Application_Number" (SStr "") = SStr s →
  PyStr.all_space s = true → app_no_of row = "".
Proof.
  intros Hv Hs. unfold app_no_of. rewrite Hv. by apply strip_all_space.
Qed.

(** C4: the key that locates the photo folder of a record is the text
    of its [Application_Number] value without the white space around
    it: the text is the key between two runs of white space, the key
    neither starts nor ends with white space, and every probe the record
    makes is of the folder named by the key under the photo directory or
    of a candidate in it.  So the cell value [" A100 "] leads to the
    folder [A100]. *)
Theorem C4_trimmed_key fs photos_dir (cols : list string) (cells : list scalar) out :
  let row := series cols cells in
  let value := row_get row "Application_Number" (SStr "") in
  let key := app_no_of row in
  (∃ l r, str value = l +:+ key +:+ r
          ∧ PyStr.all_space l = true ∧ PyStr.all_space r = true)
  ∧ (∀ c, PyStr.first_char key = Some c → PyStr.isspace c = false)
  ∧ (∀ c, PyStr.last_char key = Some c → PyStr.isspace c = false)
  ∧ (∃ ev, (row_context fs photos_dir cols row out).1.2
           = OsIsDir (PosixPath.join photos_dir key) :: ev)
  ∧ Forall (slot_event (PosixPath.join photos_dir key))
      (row_context fs photos_dir cols row out).1.2
  ∧ (value = SStr " A100 " →
     key = "A100"
     ∧ PosixPath.join photos_dir key = PosixPath.join photos_dir "A100").
Proof.
  intros row value key. split_and!.
  - apply strip_split.
  - apply strip_first.
  - apply strip_last.
  - apply row_context_starts.
  - apply row_context_events.
  - intros Hv. unfold key, app_no_of. fold value. by rewrite Hv.
Qed.

(** What a slot that returned has bound its key to: the empty value, and
    then the folder is no directory or holds no candidate; or the sized
    image of the first candidate that is a file, in the order of the
    extensions. *)
Lemma fill_slot_inv_first fs app_no folder (i : Z) context out context'
    (ev : list (event document)) out' :
  fill_slot fs app_no folder i context out = (Ok context', ev, out') →
  (context' !! photo_key i = Some blank
   ∧ (FS.isdir fs folder = false
      ∨ Forall (λ e, FS.isfile fs (img_path folder (photo_key i) e) = false)
          ["jpg"; "jpeg"; "png"]))
  ∨ (∃ pre ext post w h,
       ["jpg"; "jpeg"; "png"] = pre ++ ext :: post
       ∧ FS.isdir fs folder = true
       ∧ Forall (λ e, FS.isfile fs (img_path folder (photo_key i) e) = false) pre
       ∧ FS.resolve fs (img_path folder (photo_key i) ext)
         = Some (File (Some (w, h)))
       ∧ w ≠ 0%Z
       ∧ context' !! photo_key i
         = Some (sized (img_path folder (photo_key i) ext) w h)).
Proof.
  destruct (FS.isdir fs folder) eqn:Hd.
  - destruct (find_photo fs folder (photo_key i) ["jpg"; "jpeg"; "png"] out)
      as [[[x|e] ev1] o1] eqn:Hf.
    + destruct (find_photo_inv _ _ _ _ _ _ _ _ Hf) as [-> Hcases].
      rewrite (fill_slot_dir _ _ _ _ _ _ _ _ Hd Hf).
      intros [= <- <- <-]. rewrite lookup_insert_eq.
      destruct Hcases as [(-> & _ & Hall)|
                          (pre & ext & post & w & h & Hs & Hp & Hr & Hw & -> & _)].
      * left. split; [done|by right].
      * right. by exists pre, ext, post, w, h.
    + unfold fill_slot. rewrite bind_unfold, os_isdir_run, Hd. cbv beta iota.
      rewrite bind_unfold, Hf. done.
  - rewrite fill_slot_nodir by done. intros [= <- <- <-].
    rewrite lookup_insert_eq. left. split; [done|by left].
Qed.

(** C6: in the context a record is rendered from, every column whose
    name does not begin with "photo" (in any case) is bound, under its
    own name, to the value of its cell; every slot key [photoN] is bound
    either to the empty value, and then the folder of the record is no
    directory or holds no [photoN] file with one of the three extensions,
    or to an image reference to the first such file, in the order jpg,
    jpeg, png, with the display size computed from the file; a name that
    begins with "photo" and is not a slot key is not bound at all; and
    the cells of the photo columns have no part in the context: a record
    that differs in those cells only gets the same context. *)
Theorem C6_context_fields fs photos_dir (cols : list string) (cells : list scalar)
    out context (ev : list (event document)) out' :
  let row := series cols cells in
  let folder := PosixPath.join photos_dir (app_no_of row) in
  row_context fs photos_dir cols row out = (Ok context, ev, out') →
  (∀ col, col ∈ cols → is_photo_column col = false →
     ∃ v, loc row col = Some v ∧ context !! col = Some (PScalar v))
  ∧ (∀ i : Z, i ∈ [1; 2; 3]%Z →
       (context !! photo_key i = Some blank
        ∧ (FS.isdir fs folder = false
           ∨ Forall (λ e, FS.isfile fs (img_path folder (photo_key i) e) = false)
               ["jpg"; "jpeg"; "png"]))
       ∨ ∃ pre ext post w h,
           ["jpg"; "jpeg"; "png"] = pre ++ ext :: post
           ∧ FS.isdir fs folder = true
           ∧ Forall (λ e, FS.isfile fs (img_path folder (photo_key i) e) = false) pre
           ∧ FS.resolve fs (img_path folder (photo_key i) ext)
             = Some (File (Some (w, h)))
           ∧ w ≠ 0%Z
           ∧ context !! photo_key i
             = Some (PImage {| image_descriptor := img_path folder (photo_key i) ext;
                               width := Inches PHOTO_WIDTH_INCHES;
                               height := inject_Z (Inches PHOTO_WIDTH_INCHES)
                                         * (inject_Z h / inject_Z w) |}))
  ∧ (∀ col, is_photo_column col = true →
       col ∉ ["photo1"; "photo2"; "photo3"] → context !! col = None)
  ∧ (∀ cells',
       (∀ col, is_photo_column col = false →
               loc (series cols cells') col = loc row col) →
       row_context fs photos_dir cols (series cols cells') out
       = (Ok context, ev, out')).
Proof.
  intros row folder Hrun.
  pose proof Hrun as Hinv. apply row_context_inv in Hinv
    as (-> & c0 & x1 & x2 & x3 & ev1 & ev2 & ev3
        & Hb & Hf1 & Hf2 & Hf3 & -> & -> & _).
  fold row folder in Hb, Hf1, Hf2, Hf3.
  destruct (build_context_run (document:=document) row cols ∅ out)
    as (c0' & Hb' & Hin & Hout).
  { intros col Hcol. by apply loc_series. }
  rewrite Hb in Hb'. injection Hb' as <-.
  apply fill_slot_inv_first in Hf1, Hf2, Hf3.
  rewrite photo_key_1 in Hf1. rewrite photo_key_2 in Hf2.
  rewrite photo_key_3 in Hf3.
  rewrite lookup_insert_eq in Hf1, Hf2, Hf3.
  split_and!.
  - intros col Hcol Hp. destruct (loc_series cols cells col Hcol) as [v Hv].
    exists v. split; [done|].
    assert (col ≠ "photo1" ∧ col ≠ "photo2" ∧ col ≠ "photo3") as (N1 & N2 & N3).
    { split_and!; intros ->; done. }
    rewrite !lookup_insert_ne by done. rewrite Hin by done.
    exact (f_equal (fmap PScalar) Hv).
  - intros i Hi.
    apply elem_of_cons in Hi as [->|Hi]; [|apply elem_of_cons in Hi as [->|Hi]];
      [| |apply list_elem_of_singleton in Hi as ->].
    + rewrite photo_key_1.
      rewrite lookup_insert_ne by done. rewrite lookup_insert_ne by done.
      rewrite lookup_insert_eq. exact Hf1.
    + rewrite photo_key_2.
      rewrite lookup_insert_ne by done. rewrite lookup_insert_eq. exact Hf2.
    + rewrite photo_key_3. rewrite lookup_insert_eq. exact Hf3.
  - intros col Hp Hn.
    assert (col ≠ "photo1" ∧ col ≠ "photo2" ∧ col ≠ "photo3") as (N1 & N2 & N3).
    { split_and!; intros ->; apply Hn; in_list. }
    rewrite !lookup_insert_ne by done.
    rewrite Hout by (intros [_ ?]; congruence). apply lookup_empty.
  - intros cells' Hext. rewrite (row_context_ext _ _ _ row) by done. exact Hrun.
Qed.

(** The folder of the empty key is the photo directory itself, and a
    file [photoN.ext] directly in it is taken for slot N. *)
Lemma empty_key_root fs (tmpdir : string) (cols : list string)
    (cells : list scalar) (i : Z) context out
    (pre : list string) (ext : string) (post : list string) (w h : Z) :
  let photos_dir := PosixPath.join tmpdir "photos" in
  let row := series cols cells in
  let top := photos_dir +:+ "/" +:+ photo_key i +:+ "." +:+ ext in
  app_no_of row = "" →
  FS.isdir fs photos_dir = true →
  ["jpg"; "jpeg"; "png"] = pre ++ ext :: post →
  Forall (λ e, FS.isfile fs (img_path photos_dir (photo_key i) e) = false) pre →
  FS.resolve fs top = Some (File (Some (w, h))) →
  w ≠ 0%Z →
  FS.isdir fs (PosixPath.join photos_dir (app_no_of row)) = true
  ∧ img_path (PosixPath.join photos_dir (app_no_of row)) (photo_key i) ext = top
  ∧ ∃ ev,
      fill_slot fs (app_no_of row) (PosixPath.join photos_dir (app_no_of row))
        i context out
      = (Ok (<[photo_key i :=
                 PImage {| image_descriptor := top;
                           width := Inches PHOTO_WIDTH_INCHES;
                           height := inject_Z (Inches PHOTO_WIDTH_INCHES)
                                     * (inject_Z h / inject_Z w) |}]> context),
         ev, out)
      ∧ warnings ev = [].
Proof.
  intros photos_dir row top Hkey Hdir Hsplit Hpre Hres Hw. rewrite Hkey.
  destruct (join_photos tmpdir) as [Hne Hns]. fold photos_dir in Hne, Hns.
  assert (img_path photos_dir (photo_key i) ext = top) as Htop.
  { unfold img_path, PosixPath.join, top.
    assert (PyStr.startswith (photo_key i +:+ "." +:+ ext) "/" = false) as ->
      by reflexivity.
    apply String.eqb_neq in Hne. by rewrite Hne, Hns. }
  assert (FS.isdir fs (PosixPath.join photos_dir "") = true) as Hd.
  { unfold photos_dir. by rewrite isdir_join_empty. }
  split_and!; [done|by rewrite img_path_join_empty|].
  eexists. split.
  - rewrite <- Htop, <- (img_path_join_empty photos_dir).
    eapply fill_slot_first; [done|exact Hsplit| | |done].
    + eapply Forall_impl; [exact Hpre|]. intros e He.
      by rewrite img_path_join_empty.
    + by rewrite img_path_join_empty, Htop.
  - change (warnings (OsIsDir ?p :: ?l)) with (warnings l).
    by rewrite warnings_app, warnings_isfile.
Qed.

(** C10, as the code has it: the key is empty when the sheet has no
    [Application_Number] column and when the cell holds text that is
    white space only; a blank cell is not such a case, its value is NaN
    and its key is [nan].  When the key is empty, the folder of the
    record is the directory the archive was extracted to, and an image
    [photoN.ext] at the top level of the archive is taken for slot N. *)
Theorem C10_empty_key_root fs (tmpdir : string) (cols : list string)
    (cells : list scalar) (i : Z) context out
    (pre : list string) (ext : string) (post : list string) (w h : Z) :
  let photos_dir := PosixPath.join tmpdir "photos" in
  let row := series cols cells in
  let top := photos_dir +:+ "/" +:+ photo_key i +:+ "." +:+ ext in
  ("Application_Number" ∉ cols → app_no_of row = "")
  ∧ (∀ s, loc row "Application_Number" = Some (SStr s) →
          PyStr.all_space s = true → app_no_of row = "")
  ∧ (loc row "Application_Number" = Some SNaN → app_no_of row = "nan")
  ∧ (app_no_of row = "" →
     FS.isdir fs photos_dir = true →
     ["jpg"; "jpeg"; "png"] = pre ++ ext :: post →
     Forall (λ e, FS.isfile fs (img_path photos_dir (photo_key i) e) = false) pre →
     FS.resolve fs top = Some (File (Some (w, h))) →
     w ≠ 0%Z →
     FS.isdir fs (PosixPath.join photos_dir (app_no_of row)) = true
     ∧ img_path (PosixPath.join photos_dir (app_no_of row)) (photo_key i) ext = top
     ∧ ∃ ev,
         fill_slot fs (app_no_of row) (PosixPath.join photos_dir (app_no_of row))
           i context out
         = (Ok (<[photo_key i :=
                    PImage {| image_descriptor := top;
                              width := Inches PHOTO_WIDTH_INCHES;
                              height := inject_Z (Inches PHOTO_WIDTH_INCHES)
                                        * (inject_Z h / inject_Z w) |}]> context),
            ev, out)
         ∧ warnings ev = []).
Proof.
  intros photos_dir row top. split_and!.
  - apply app_no_absent.
  - intros s Hs. apply app_no_whitespace. unfold row_get. by rewrite Hs.
  - intros Hn. unfold app_no_of, row_get. by rewrite Hn.
  - apply empty_key_root.
Qed.

End RowClaims.

(** ** Claims about the run *)

Section RunClaims.

Context {document : Type} (tpl_render : gmap string pyval → Res document).
Implicit Types (fs : node) (out : gmap string document)
  (context : gmap string pyval) (row : list (string * scalar))
  (results : list (gmap string pyval * list (event document) * document)).

Lemma rows_done_length fs photos_dir (cols : list string)
    (rows : list (list (string * scalar))) results :
  rows_done tpl_render fs photos_dir cols rows results →
  length results = length rows.
Proof. intros H. symmetry. by eapply Forall2_length. Qed.

Lemma rows_done_events fs photos_dir (cols : list string)
    (cellss : list (list scalar)) results :
  rows_done tpl_render fs photos_dir cols (series cols <$> cellss) results →
  Forall (λ t, saved t.1.2 = [] ∧ rendered t.1.2 = [] ∧ downloads t.1.2 = [])
    results.
Proof.
  unfold rows_done. rewrite Forall2_fmap_l.
  induction 1 as [|cells t cellss results [Hrc _] _ IH]; constructor; [|done].
  pose proof (row_context_events (document:=document) fs photos_dir cols cells ∅)
    as Hev.
  simpl in Hev. rewrite Hrc in Hev. by eapply slot_events_saved.
Qed.

Lemma rows_done_warnings fs photos_dir (cols : list string)
    (rows : list (list (string * scalar))) results :
  rows_done tpl_render fs photos_dir cols rows results →
  (λ t, warnings t.1.2) <$> results
  = (λ row, warnings (row_context (document:=document)
                        fs photos_dir cols row ∅).1.2) <$> rows.
Proof.
  induction 1 as [|row t rows results [Hrc _] _ IH]; [done|].
  rewrite !fmap_cons, IH. by rewrite Hrc.
Qed.

Lemma loop_trace_saved i results :
  Forall (λ t, saved t.1.2 = [] ∧ rendered t.1.2 = [] ∧ downloads t.1.2 = [])
    results →
  saved (loop_trace i results) = out_name <$> seq i (length results)
  ∧ rendered (loop_trace i results) = results.*1.*1
  ∧ downloads (loop_trace i results) = [].
Proof.
  intros H. revert i.
  induction H as [|t results (H1 & H2 & H3) _ IH]; intros i; [done|].
  destruct (IH (S i)) as (IH1 & IH2 & IH3). simpl.
  rewrite saved_app, rendered_app, downloads_app, H1, H2, H3. simpl.
  rewrite IH1, IH2, IH3. done.
Qed.

Lemma loop_trace_warnings i results :
  warnings (loop_trace i results) = concat ((λ t, warnings t.1.2) <$> results).
Proof.
  revert i. induction results as [|t results IH]; intros i; [done|].
  simpl. rewrite warnings_app. simpl. by rewrite IH.
Qed.

Lemma out_names_NoDup i n : NoDup (out_name <$> seq i n).
Proof.
  apply NoDup_fmap_2; [|apply NoDup_seq].
  intros a b. apply out_name_inj.
Qed.

(** The names in [outputs_dir] after [docs] were saved into the empty
    directory: one per document, in some order. *)
Lemma saved_docs_names (docs : list document) :
  (map_to_list (saved_docs 0 docs ∅)).*1 ≡ₚ out_name <$> seq 0 (length docs).
Proof.
  apply NoDup_Permutation.
  - apply NoDup_fst_map_to_list.
  - apply out_names_NoDup.
  - intros name. rewrite list_elem_of_fmap. split.
    + intros ([n d] & -> & Hnd). apply elem_of_map_to_list in Hnd.
      destruct (saved_docs_dom docs 0 n) as (k & Hk & ->); [by eexists|].
      apply list_elem_of_fmap. exists k. split; [done|].
      apply elem_of_seq. lia.
    + intros Hn. apply list_elem_of_fmap in Hn as (k & -> & Hk).
      apply elem_of_seq in Hk.
      destruct (lookup_lt_is_Some_2 docs k) as [d Hd]; [lia|].
      exists (out_name k, d). split; [done|].
      apply elem_of_map_to_list. by apply (saved_docs_lookup docs 0 ∅ k d).
Qed.

(** The body of a run in which every row goes through. *)
Lemma main_done (df : DataFrame) fs tmpdir out :
  forallb (λ r, is_ok (process_row tpl_render fs (PosixPath.join tmpdir "photos")
                         (columns df) r.1 r.2 ∅).1.1) (iterrows df) = true →
  ∃ results zipf,
    rows_done tpl_render fs (PosixPath.join tmpdir "photos") (columns df)
      (series (columns df) <$> data df) results
    ∧ main tpl_render true (Some (Ok df)) (Some (Ok fs)) tmpdir out
      = (Ok tt, loop_trace 0 results ++ [StDownloadButton zipf], ∅)
    ∧ saved (loop_trace 0 results) = out_name <$> seq 0 (length (data df))
    ∧ downloads (loop_trace 0 results) = []
    ∧ zipf.*1 ≡ₚ out_name <$> seq 0 (length (data df))
    ∧ Sorted String.le zipf.*1
    ∧ (∀ k t, results !! k = Some t → (out_name k, t.2) ∈ zipf).
Proof.
  intros Hok. destruct (main_run tpl_render df fs tmpdir out Hok)
    as (results & zipf & Hdone & Hmain & Hnames & Hlook).
  pose proof (rows_done_length _ _ _ _ _ Hdone) as Hlen.
  rewrite length_fmap in Hlen.
  destruct (loop_trace_saved 0 results (rows_done_events _ _ _ _ _ Hdone))
    as (Hsaved & _ & Hdl).
  assert (zipf.*1 ≡ₚ out_name <$> seq 0 (length (data df))) as Hperm.
  { rewrite Hnames, merge_sort_Permutation, saved_docs_names.
    by rewrite length_fmap, Hlen. }
  exists results, zipf. split_and!; try done.
  - by rewrite Hsaved, Hlen.
  - rewrite Hnames. apply (Sorted_merge_sort String.le).
  - intros k t Hk.
    assert (out_name k ∈ zipf.*1) as Hin.
    { rewrite Hperm. apply list_elem_of_fmap. exists k. split; [done|].
      apply elem_of_seq. apply lookup_lt_Some in Hk. lia. }
    apply list_elem_of_fmap in Hin as ([n d] & Hn & Hnd). simpl in Hn. subst n.
    pose proof (Hlook _ _ Hnd) as Hd.
    rewrite (saved_docs_lookup results.*2 0 ∅ k t.2) in Hd.
    + by injection Hd as <-.
    + by rewrite list_lookup_fmap, Hk.
Qed.

(** C1: for a sheet of R data rows that is read and whose rows all go
    through, the run saves exactly R documents, under R different names,
    and ends with one download whose archive has exactly R entries, the
    names of the R documents, each once. *)
Theorem C1_one_document_per_record (df : DataFrame) fs (tmpdir : string) out :
  forallb (λ r, is_ok (process_row tpl_render fs (PosixPath.join tmpdir "photos")
                         (columns df) r.1 r.2 ∅).1.1) (iterrows df) = true →
  ∃ ev zipf,
    main tpl_render true (Some (Ok df)) (Some (Ok fs)) tmpdir out
    = (Ok tt, ev ++ [StDownloadButton zipf], ∅)
    ∧ length (saved ev) = length (data df)
    ∧ NoDup (saved ev)
    ∧ downloads ev = []
    ∧ length zipf = length (data df)
    ∧ NoDup zipf.*1
    ∧ zipf.*1 ≡ₚ saved ev.
Proof.
  intros Hok. destruct (main_done df fs tmpdir out Hok)
    as (results & zipf & _ & Hmain & Hsaved & Hdl & Hperm & _ & _).
  exists (loop_trace 0 results), zipf. rewrite Hsaved. split_and!; try done.
  - by rewrite length_fmap, length_seq.
  - apply out_names_NoDup.
  - rewrite <- (length_fmap fst), Hperm. by rewrite length_fmap, length_seq.
  - rewrite Hperm. apply out_names_NoDup.
Qed.

(** C7: in a run in which every row goes through, the document of the
    row at position p, counted from 1, is saved as
    [filled_form_p.docx] and stands under that name in the archive, and
    the entries of the archive are in the lexicographic order of their
    names. *)
Theorem C7_names_and_order (df : DataFrame) fs (tmpdir : string) out :
  forallb (λ r, is_ok (process_row tpl_render fs (PosixPath.join tmpdir "photos")
                         (columns df) r.1 r.2 ∅).1.1) (iterrows df) = true →
  ∃ ev zipf,
    main tpl_render true (Some (Ok df)) (Some (Ok fs)) tmpdir out
    = (Ok tt, ev ++ [StDownloadButton zipf], ∅)
    ∧ (∀ (p : nat) (cells : list scalar),
         (1 ≤ p)%nat → data df !! (p - 1)%nat = Some cells →
         ∃ context evr doc,
           row_context (document:=document) fs (PosixPath.join tmpdir "photos")
             (columns df) (series (columns df) cells) ∅ = (Ok context, evr, ∅)
           ∧ tpl_render context = Ok doc
           ∧ saved ev !! (p - 1)%nat
             = Some ("filled_form_" +:+ pretty p +:+ ".docx")
           ∧ ("filled_form_" +:+ pretty p +:+ ".docx", doc) ∈ zipf)
    ∧ Sorted String.le zipf.*1.
Proof.
  intros Hok. destruct (main_done df fs tmpdir out Hok)
    as (results & zipf & Hdone & Hmain & Hsaved & _ & _ & Hsorted & Hin).
  exists (loop_trace 0 results), zipf. split_and!; [done| |done].
  intros p cells Hp Hcells.
  assert (out_name (p - 1) = "filled_form_" +:+ pretty p +:+ ".docx") as Hname.
  { unfold out_name. by replace (p - 1 + 1)%nat with p by lia. }
  rewrite <- Hname.
  assert ((series (columns df) <$> data df) !! (p - 1)%nat
          = Some (series (columns df) cells)) as Hrow
    by (by rewrite list_lookup_fmap, Hcells).
  destruct (Forall2_lookup_l _ _ _ _ _ Hdone Hrow) as (t & Ht & Hrc & Hr).
  exists t.1.1, t.1.2, t.2. split_and!; [done|done| |by apply Hin].
  rewrite Hsaved, list_lookup_fmap, lookup_seq_lt; [done|].
  by apply lookup_lt_Some in Hcells.
Qed.

Lemma fill_slot_warns_ok fs app_no folder (i : Z) context out :
  warnings (fill_slot fs app_no folder i context out).1.2 ≠ [] →
  (fill_slot fs app_no folder i context out).1.1
  = Ok (<[photo_key i := blank]> context).
Proof.
  unfold fill_slot. rewrite bind_unfold, os_isdir_run. cbv beta iota.
  rewrite bind_unfold. destruct (FS.isdir fs folder); [|done].
  pose proof (find_photo_warnings fs folder (photo_key i) ["jpg"; "jpeg"; "png"] out)
    as Hw.
  destruct (find_photo fs folder (photo_key i) ["jpg"; "jpeg"; "png"] out)
    as [[[x|e] ev] o] eqn:Hf; simpl in Hw |- *; [|done].
  apply find_photo_inv in Hf as [_ [(-> & _)|Hhit]]; [done|].
  destruct Hhit as (? & ? & ? & ? & ? & _ & _ & _ & _ & -> & _).
  rewrite bind_unfold. simpl. by rewrite warnings_app, Hw.
Qed.

(** C9: a missing upload, of the sheet or of the archive, and a sheet
    that cannot be read each end the run at once: the one call made is
    the error message, nothing is rendered, saved or offered for
    download, and [outputs_dir] is as it was.  Warnings do not end
    anything: a slot that warns returns with its slot blank, and a run
    in which every row goes through ends with the download of one
    document per row, all the warnings of its rows given on the way. *)
Theorem C9_fatal_errors_and_warnings (excel_file : option (Res DataFrame))
    (photos_zip : option (Res node)) (tmpdir : string) out :
  let run := main tpl_render true excel_file photos_zip tmpdir out in
  (excel_file = None ∨ photos_zip = None →
     run = (Raise StopException,
            [StError "Please upload both the Excel and the photos ZIP before generating."],
            out)
     ∧ rendered run.1.2 = [] ∧ saved run.1.2 = [] ∧ downloads run.1.2 = [])
  ∧ (∀ e archive,
       excel_file = Some (Raise e) → photos_zip = Some archive →
       run = (Raise StopException,
              [StError ("Failed to read Excel file: " +:+ exn_str e)], out)
       ∧ rendered run.1.2 = [] ∧ saved run.1.2 = [] ∧ downloads run.1.2 = [])
  ∧ (∀ fs app_no folder (i : Z) context,
       warnings (fill_slot fs app_no folder i context out).1.2 ≠ [] →
       (fill_slot fs app_no folder i context out).1.1
       = Ok (<[photo_key i := blank]> context))
  ∧ (∀ df fs,
       excel_file = Some (Ok df) → photos_zip = Some (Ok fs) →
       forallb (λ r, is_ok (process_row tpl_render fs
                              (PosixPath.join tmpdir "photos")
                              (columns df) r.1 r.2 ∅).1.1) (iterrows df) = true →
       ∃ ev zipf,
         run = (Ok tt, ev ++ [StDownloadButton zipf], ∅)
         ∧ length zipf = length (data df)
         ∧ warnings ev
           = concat ((λ cells,
               warnings (row_context (document:=document) fs
                           (PosixPath.join tmpdir "photos") (columns df)
                           (series (columns df) cells) ∅).1.2) <$> data df)).
Proof.
  intros run. split_and!.
  - intros Hmiss. assert (run = (Raise StopException,
      [StError "Please upload both the Excel and the photos ZIP before generating."],
      out)) as ->; [|done].
    unfold run, main.
    destruct Hmiss as [-> | ->]; [done|]. by destruct excel_file.
  - intros e archive -> ->. by split_and!.
  - intros fs app_no folder i context. apply fill_slot_warns_ok.
  - intros df fs -> -> Hok. unfold run.
    destruct (main_done df fs tmpdir out Hok)
      as (results & zipf & Hdone & Hmain & _ & _ & Hperm & _ & _).
    exists (loop_trace 0 results), zipf. split_and!; [done| |].
    + rewrite <- (length_fmap fst), Hperm. by rewrite length_fmap, length_seq.
    + rewrite loop_trace_warnings, (rows_done_warnings _ _ _ _ _ Hdone).
      by rewrite <- list_fmap_compose.
Qed.

End RunClaims.

(** * The claims on the sample run *)

Lemma C2_witness :
  FS.isfile Sample.fs "/tmp/run/photos/A100/photo1.png" = true
  ∧ fill_slot (document:=unit) Sample.fs "A100" "/tmp/run/photos/A100" 1 ∅ ∅
    = (Ok (<["photo1" :=
               PImage {| image_descriptor := "/tmp/run/photos/A100/photo1.jpg";
                         width := 1828800;
                         height := inject_Z 1828800
                                   * (inject_Z 300 / inject_Z 400) |}]> ∅),
       [OsIsDir "/tmp/run/photos/A100";
        OsIsFile "/tmp/run/photos/A100/photo1.jpg";
        PilOpen "/tmp/run/photos/A100/photo1.jpg"],
       ∅).
Proof.
  split; [reflexivity|].
  apply (C2_extension_preference (document:=unit) Sample.fs "A100"
           "/tmp/run/photos/A100" 1 ∅ ∅ [] "jpg" ["jpeg"; "png"] 400 300).
  - reflexivity.
  - reflexivity.
  - constructor.
  - reflexivity.
  - lia.
Defined.



Lemma C4_witness :
  row_get (series Sample.cols [SStr " A100 "; SStr "Ann"; SStr "x"; SInt 5])
    "Application_Number" (SStr "") = SStr " A100 "
  ∧ app_no_of (series Sample.cols [SStr " A100 "; SStr "Ann"; SStr "x"; SInt 5])
    = "A100"
  ∧ PosixPath.join Sample.photos_dir
      (app_no_of (series Sample.cols [SStr " A100 "; SStr "Ann"; SStr "x"; SInt 5]))
    = PosixPath.join Sample.photos_dir "A100".
Proof.
  split; [reflexivity|].
  apply (C4_trimmed_key (document:=unit) Sample.fs Sample.photos_dir Sample.cols
           [SStr " A100 "; SStr "Ann"; SStr "x"; SInt 5] ∅).
  reflexivity.
Defined.

Lemma C5_witness :
  ∃ w h : Z,
    FS.resolve Sample.fs "/tmp/run/photos/A100/photo2.png" = Some (File (Some (w, h)))
    ∧ w ≠ 0%Z
    ∧ (inject_Z 1828800 * (inject_Z 200 / inject_Z 100) / inject_Z 1828800
       == inject_Z h / inject_Z w)%Q.
Proof.
  destruct (C5_aspect_ratio (document:=unit) Sample.fs "/tmp/run/photos/A100"
              "photo2" ["jpg"; "jpeg"; "png"] ∅
              {| image_descriptor := "/tmp/run/photos/A100/photo2.png";
                 width := 1828800;
                 height := inject_Z 1828800 * (inject_Z 200 / inject_Z 100) |}
              [OsIsFile "/tmp/run/photos/A100/photo2.jpg";
               OsIsFile "/tmp/run/photos/A100/photo2.jpeg";
               OsIsFile "/tmp/run/photos/A100/photo2.png";
               PilOpen "/tmp/run/photos/A100/photo2.png"] ∅)
    as (w & h & Hr & Hw & _ & _ & _ & Hq).
  - reflexivity.
  - exists w, h. split_and!; [exact Hr|exact Hw|exact Hq].
Defined.

Lemma C6_witness :
  ∃ context ev,
    row_context (document:=unit) Sample.fs Sample.photos_dir Sample.cols
      (series Sample.cols [SStr " A100 "; SStr "Ann"; SStr "x"; SInt 5]) ∅
    = (Ok context, ev, ∅)
    ∧ context !! "Name" = Some (PScalar (SStr "Ann"))
    ∧ context !! "photo1"
      = Some (PImage {| image_descriptor := "/tmp/run/photos/A100/photo1.jpg";
                        width := 1828800;
                        height := inject_Z 1828800
                                  * (inject_Z 300 / inject_Z 400) |})
    ∧ context !! "photo3" = Some blank
    ∧ context !! "Photo_ID" = None
    ∧ row_context (document:=unit) Sample.fs Sample.photos_dir Sample.cols
        (series Sample.cols [SStr " A100 "; SStr "Ann"; SStr "y"; SInt 7]) ∅
      = (Ok context, ev, ∅).
Proof.
  destruct (row_context (document:=unit) Sample.fs Sample.photos_dir Sample.cols
              (series Sample.cols [SStr " A100 "; SStr "Ann"; SStr "x"; SInt 5]) ∅)
    as [[[context|e] ev] o] eqn:Hrc; [|vm_compute in Hrc; discriminate Hrc].
  destruct (row_context_inv _ _ _ _ _ _ _ _ Hrc) as [-> _].
  exists context, ev. split; [reflexivity|].
  destruct (C6_context_fields (document:=unit) Sample.fs Sample.photos_dir
              Sample.cols [SStr " A100 "; SStr "Ann"; SStr "x"; SInt 5]
              ∅ context ev ∅ Hrc)
    as (Hcols & Hslots & Hphoto & Hcells).
  split_and!.
  - destruct (Hcols "Name") as (v & Hv & Hc).
    + unfold Sample.cols. in_list.
    + reflexivity.
    + injection Hv as <-. exact Hc.
  - destruct (Hslots 1%Z) as [[_ [Hd|Hall]]|
      (pre & ext & post & w & h & Hs & _ & Hpre & Hr & _ & Hc)].
    + in_list.
    + discriminate Hd.
    + apply Forall_cons in Hall as [Hjpg _]. discriminate Hjpg.
    + destruct pre as [|e pre].
      * injection Hs as <- _. vm_compute in Hr. injection Hr as <- <-.
        exact Hc.
      * injection Hs as <- _. apply Forall_cons in Hpre as [Hjpg _].
        discriminate Hjpg.
  - destruct (Hslots 3%Z) as [[Hc _]|
      (pre & ext & post & w & h & Hs & _ & _ & Hr & _ & _)].
    + in_list.
    + exact Hc.
    + destruct pre as [|e1 [|e2 [|e3 pre]]].
      * injection Hs as <- _. discriminate Hr.
      * injection Hs as _ <- _. discriminate Hr.
      * injection Hs as _ _ <- _. discriminate Hr.
      * injection Hs as _ _ _ Hs. by destruct pre.
  - apply Hphoto; [reflexivity|]. notin_list.
  - apply Hcells. intros col Hcol. unfold Sample.cols. cbn [series loc].
    destruct (String.eqb "Application_Number" col); [reflexivity|].
    destruct (String.eqb "Name" col); [reflexivity|].
    destruct (String.eqb "photo1" col) eqn:H1.
    { apply String.eqb_eq in H1 as <-. discriminate Hcol. }
    destruct (String.eqb "Photo_ID" col) eqn:H2; [|reflexivity].
    apply String.eqb_eq in H2 as <-. discriminate Hcol.
Defined.

Lemma C8_counterexample :
  ¬ (∀ (fs : node) (app_no folder : string) (i : Z)
       (context : gmap string pyval) (out : gmap string unit) (msg : string),
       msg ∈ warnings (fill_slot fs app_no folder i context out).1.2 →
       msg = spec_warning i app_no).
Proof.
  intros H.
  specialize (H (Dir []) "A100" "/tmp/run/photos/A100" 1%Z ∅ ∅
                "Missing `photo1.*` in folder `A100/`").
  discriminate H. vm_compute. left.
Qed.

Lemma C8_witness :
  warnings (fill_slot (document:=unit) Sample.fs "A101" "/tmp/run/photos/A101" 2 ∅ ∅).1.2
  = ["Missing `photo2.*` in folder `A101/`"].
Proof.
  apply (proj2 (C8_warning_line (document:=unit) Sample.fs "A101"
                  "/tmp/run/photos/A101" 2 ∅ ∅)
           (<["photo2" := blank]> ∅)
           (fill_slot (document:=unit) Sample.fs "A101" "/tmp/run/photos/A101" 2 ∅ ∅).1.2
           ∅).
  - reflexivity.
  - reflexivity.
Defined.

Lemma C10_counterexample :
  ¬ (∀ (fs : node) (tmpdir : string) (cols : list string) (cells : list scalar)
       (i : Z) (context : gmap string pyval) (out : gmap string unit)
       (pre : list string) (ext : string) (post : list string) (w h : Z),
       let photos_dir := PosixPath.join tmpdir "photos" in
       let row := series cols cells in
       let top := photos_dir +:+ "/" +:+ photo_key i +:+ "." +:+ ext in
       spec_key_absent_or_blank row →
       FS.isdir fs photos_dir = true →
       ["jpg"; "jpeg"; "png"] = pre ++ ext :: post →
       Forall (λ e, FS.isfile fs (img_path photos_dir (photo_key i) e) = false) pre →
       FS.resolve fs top = Some (File (Some (w, h))) →
       w ≠ 0%Z →
       ∃ context' ev,
         fill_slot fs (app_no_of row) (PosixPath.join photos_dir (app_no_of row))
           i context out
         = (Ok context', ev, out)
         ∧ context' !! photo_key i
           = Some (PImage {| image_descriptor := top;
                             width := Inches PHOTO_WIDTH_INCHES;
                             height := inject_Z (Inches PHOTO_WIDTH_INCHES)
                                       * (inject_Z h / inject_Z w) |})).
Proof.
  intros H.
  destruct (H Sample.fs Sample.tmpdir ["Application_Number"] [SNaN] 3%Z ∅ ∅
              ["jpg"] "jpeg" ["png"] 640%Z 480%Z)
    as (context' & ev & Hrun & Hc).
  - right. by left.
  - reflexivity.
  - reflexivity.
  - repeat constructor.
  - reflexivity.
  - lia.
  - vm_compute in Hrun. injection Hrun as <- _. vm_compute in Hc.
    discriminate Hc.
Qed.

Lemma C10_witness :
  app_no_of (series (columns Sample.df_nokey) [SStr "Cy"]) = ""
  ∧ app_no_of (series ["Application_Number"] [SStr "  "]) = ""
  ∧ app_no_of (series ["Application_Number"] [SNaN]) = "nan"
  ∧ ∃ ev,
      fill_slot (document:=unit) Sample.fs
        (app_no_of (series (columns Sample.df_nokey) [SStr "Cy"]))
        (PosixPath.join (PosixPath.join Sample.tmpdir "photos")
           (app_no_of (series (columns Sample.df_nokey) [SStr "Cy"])))
        3 ∅ ∅
      = (Ok (<["photo3" :=
                 PImage {| image_descriptor := "/tmp/run/photos/photo3.jpeg";
                           width := 1828800;
                           height := inject_Z 1828800
                                     * (inject_Z 480 / inject_Z 640) |}]> ∅),
         ev, ∅)
      ∧ warnings ev = [].
Proof.
  destruct (C10_empty_key_root (document:=unit) Sample.fs Sample.tmpdir
              (columns Sample.df_nokey) [SStr "Cy"] 3 ∅ ∅
              ["jpg"] "jpeg" ["png"] 640 480)
    as (Habsent & _ & _ & Hroot).
  assert (app_no_of (series (columns Sample.df_nokey) [SStr "Cy"]) = "") as Hkey.
  { apply Habsent. unfold Sample.df_nokey, columns. notin_list. }
  split_and!.
  - exact Hkey.
  - apply (proj1 (proj2 (C10_empty_key_root (document:=unit) Sample.fs
                           Sample.tmpdir ["Application_Number"] [SStr "  "]
                           3 ∅ ∅ ["jpg"] "jpeg" ["png"] 640 480)) "  ");
      reflexivity.
  - apply (proj1 (proj2 (proj2 (C10_empty_key_root (document:=unit) Sample.fs
                           Sample.tmpdir ["Application_Number"] [SNaN]
                           3 ∅ ∅ ["jpg"] "jpeg" ["png"] 640 480))));
      reflexivity.
  - apply Hroot.
    + exact Hkey.
    + reflexivity.
    + reflexivity.
    + repeat constructor.
    + reflexivity.
    + lia.
Defined.

Lemma C1_witness :
  ∃ ev zipf,
    main Sample.echo true (Some (Ok Sample.df)) (Some (Ok Sample.fs)) Sample.tmpdir ∅
    = (Ok tt, ev ++ [StDownloadButton zipf], ∅)
    ∧ length (saved ev) = 2%nat
    ∧ length zipf = 2%nat.
Proof.
  destruct (C1_one_document_per_record Sample.echo Sample.df Sample.fs Sample.tmpdir ∅)
    as (ev & zipf & Hmain & Hsaved & _ & _ & Hzip & _).
  - vm_compute. reflexivity.
  - exists ev, zipf. split_and!; [exact Hmain|exact Hsaved|exact Hzip].
Defined.

Lemma C7_witness :
  ∃ ev zipf,
    main Sample.echo true (Some (Ok Sample.df)) (Some (Ok Sample.fs)) Sample.tmpdir ∅
    = (Ok tt, ev ++ [StDownloadButton zipf], ∅)
    ∧ saved ev !! 1%nat = Some "filled_form_2.docx"
    ∧ Sorted String.le zipf.*1.
Proof.
  destruct (C7_names_and_order Sample.echo Sample.df Sample.fs Sample.tmpdir ∅)
    as (ev & zipf & Hmain & Hrows & Hsorted).
  - vm_compute. reflexivity.
  - exists ev, zipf. split_and!; [exact Hmain| |exact Hsorted].
    destruct (Hrows 2%nat [SStr "A101"; SStr "Bob"]) as (_ & _ & _ & _ & _ & Hs & _).
    + lia.
    + reflexivity.
    + exact Hs.
Defined.

Lemma C9_witness :
  main Sample.echo true None (Some (Ok Sample.fs)) Sample.tmpdir ∅
  = (Raise StopException,
     [StError "Please upload both the Excel and the photos ZIP before generating."],
     ∅)
  ∧ main Sample.echo true (Some (Raise (LibraryError "File is not a zip file")))
      (Some (Ok Sample.fs)) Sample.tmpdir ∅
    = (Raise StopException,
       [StError "Failed to read Excel file: File is not a zip file"], ∅)
  ∧ ∃ ev zipf,
      main Sample.echo true (Some (Ok Sample.df)) (Some (Ok Sample.fs)) Sample.tmpdir ∅
      = (Ok tt, ev ++ [StDownloadButton zipf], ∅)
      ∧ length zipf = 2%nat
      ∧ length (warnings ev) = 4%nat.
Proof.
  split_and!.
  - apply (C9_fatal_errors_and_warnings Sample.echo None (Some (Ok Sample.fs))
             Sample.tmpdir ∅).
    left. reflexivity.
  - apply (proj1 (proj2 (C9_fatal_errors_and_warnings Sample.echo
             (Some (Raise (LibraryError "File is not a zip file")))
             (Some (Ok Sample.fs)) Sample.tmpdir ∅))
             (LibraryError "File is not a zip file") (Ok Sample.fs));
      reflexivity.
  - destruct (proj2 (proj2 (proj2 (C9_fatal_errors_and_warnings Sample.echo
               (Some (Ok Sample.df)) (Some (Ok Sample.fs)) Sample.tmpdir ∅)))
               Sample.df Sample.fs eq_refl eq_refl)
      as (ev & zipf & Hmain & Hzip & Hw).
    + vm_compute. reflexivity.
    + exists ev, zipf. split_and!; [exact Hmain|exact Hzip|].
      rewrite Hw. vm_compute. reflexivity.
Defined.

(** * Further properties of the script *)

(** ** Photo slots *)

Section SlotProperties.

Context {document : Type}.
Implicit Types (fs : node) (out : gmap string document)
  (context : gmap string pyval) (row : list (string * scalar)).

Lemma find_photo_bad fs folder key ext exts out (img : option (Z * Z)) :
  FS.resolve fs (img_path folder key ext) = Some (File img) →
  match img with Some (w, _) => w = 0%Z | None => True end →
  find_photo fs folder key (ext :: exts) out
  = (Raise (match img with
            | Some _ => ZeroDivisionError
            | None => UnidentifiedImageError (img_path folder key ext)
            end),
     [OsIsFile (img_path folder key ext); PilOpen (img_path folder key ext)],
     out).
Proof.
  intros Hr Himg. simpl. rewrite bind_unfold, os_isfile_run.
  rewrite (isfile_of_resolve _ _ _ Hr). cbv beta iota.
  unfold pil_size. rewrite !bind_unfold. unfold emit at 1. rewrite Hr.
  destruct img as [[w h]|]; [|done]. subst w. done.
Qed.

(** X1: The first candidate that is a file is opened, whatever it holds: a
    file that is no image raises [UnidentifiedImageError], an image of
    width zero raises [ZeroDivisionError].  The candidates after it are
    not tried and no warning is given. *)
Theorem undecodable_match_raises fs app_no folder (i : Z) context out
    (pre : list string) (ext : string) (post : list string)
    (img : option (Z * Z)) :
  FS.isdir fs folder = true →
  ["jpg"; "jpeg"; "png"] = pre ++ ext :: post →
  Forall (λ e, FS.isfile fs (img_path folder (photo_key i) e) = false) pre →
  FS.resolve fs (img_path folder (photo_key i) ext) = Some (File img) →
  match img with Some (w, _) => w = 0%Z | None => True end →
  fill_slot fs app_no folder i context out
  = (Raise (match img with
            | Some _ => ZeroDivisionError
            | None => UnidentifiedImageError (img_path folder (photo_key i) ext)
            end),
     OsIsDir folder
     :: (OsIsFile <$> (img_path folder (photo_key i) <$> pre ++ [ext]))
     ++ [PilOpen (img_path folder (photo_key i) ext)],
     out).
Proof.
  intros Hd Hsplit Hpre Hr Himg.
  unfold fill_slot. rewrite bind_unfold, os_isdir_run, Hd. cbv beta iota.
  rewrite bind_unfold, Hsplit, find_photo_skip by done.
  rewrite (find_photo_bad _ _ _ _ _ _ _ Hr Himg). simpl.
  by rewrite !fmap_app, <- app_assoc.
Qed.

Lemma find_photo_frame fs fs' folder key (exts : list string) out :
  Forall (λ e, FS.resolve fs (img_path folder key e)
               = FS.resolve fs' (img_path folder key e)) exts →
  find_photo fs folder key exts out = find_photo fs' folder key exts out.
Proof.
  induction 1 as [|ext exts He _ IH]; [done|].
  simpl. rewrite !bind_unfold, !os_isfile_run. unfold FS.isfile. rewrite He.
  destruct (FS.resolve fs' (img_path folder key ext)) as [[img|]|] eqn:Hr;
    cbv beta iota; rewrite ?IH; try done.
  unfold pil_size. rewrite !bind_unfold. unfold emit. by rewrite He, Hr.
Qed.

(** X2: A slot looks at nothing but whether the folder is a directory and
    what its three candidates are: on two file systems that agree there,
    it makes the same calls and comes to the same end. *)
Theorem fill_slot_frame fs fs' app_no folder (i : Z) context out :
  FS.isdir fs folder = FS.isdir fs' folder →
  Forall (λ e, FS.resolve fs (img_path folder (photo_key i) e)
               = FS.resolve fs' (img_path folder (photo_key i) e))
    ["jpg"; "jpeg"; "png"] →
  fill_slot fs app_no folder i context out
  = fill_slot fs' app_no folder i context out.
Proof.
  intros Hd Hc. unfold fill_slot.
  rewrite !bind_unfold, !os_isdir_run, Hd. cbv beta iota.
  destruct (FS.isdir fs' folder); [|done].
  by rewrite !bind_unfold, (find_photo_frame fs fs').
Qed.

Lemma missing_warning_inj (k1 k2 app_no : string) :
  k1 ∈ ["photo1"; "photo2"; "photo3"] → k2 ∈ ["photo1"; "photo2"; "photo3"] →
  missing_warning k1 app_no = missing_warning k2 app_no → k1 = k2.
Proof.
  intros H1 H2 Heq.
  repeat (apply elem_of_cons in H1 as [->|H1]);
    [..|by apply elem_of_nil in H1];
    (repeat (apply elem_of_cons in H2 as [->|H2]);
     [..|by apply elem_of_nil in H2]);
    first [reflexivity | discriminate Heq].
Qed.

(** X3: In the context a row is rendered from, a slot is blank exactly when
    the warning of that slot was given, and a row gives at most three
    warnings. *)
Theorem blank_iff_warned fs photos_dir (cols : list string) (cells : list scalar)
    out context (ev : list (event document)) out' :
  let row := series cols cells in
  row_context fs photos_dir cols row out = (Ok context, ev, out') →
  (∀ key, key ∈ ["photo1"; "photo2"; "photo3"] →
     context !! key = Some blank
     ↔ missing_warning key (app_no_of row) ∈ warnings ev)
  ∧ (length (warnings ev) ≤ 3)%nat.
Proof.
  intros row Hrun. apply row_context_inv in Hrun
    as (-> & c0 & x1 & x2 & x3 & ev1 & ev2 & ev3
        & _ & _ & _ & _ & -> & -> & Hs1 & Hs2 & Hs3).
  fold row in Hs1, Hs2, Hs3. rewrite !warnings_app.
  set (folder := PosixPath.join photos_dir (app_no_of row)) in *.
  assert (∀ i x ws, slot_bound fs (app_no_of row) folder i x ws →
    (x = blank ∧ ws = [missing_warning (photo_key i) (app_no_of row)])
    ∨ (x ≠ blank ∧ ws = [])) as Hcase.
  { intros i x ws [(-> & -> & _)|(ext & w & h & _ & _ & _ & _ & -> & ->)];
      [by left|by right]. }
  apply Hcase in Hs1, Hs2, Hs3.
  rewrite photo_key_1 in Hs1. rewrite photo_key_2 in Hs2. rewrite photo_key_3 in Hs3.
  split.
  - intros key Hkey.
    assert (∀ k, k ∈ ["photo1"; "photo2"; "photo3"] →
              missing_warning key (app_no_of row) = missing_warning k (app_no_of row)
              ↔ key = k) as Hinj.
    { intros k Hk. split; [by apply missing_warning_inj|by intros ->]. }
    assert ("photo1" ∈ ["photo1"; "photo2"; "photo3"]) as I1 by (by left).
    assert ("photo2" ∈ ["photo1"; "photo2"; "photo3"]) as I2 by (right; by left).
    assert ("photo3" ∈ ["photo1"; "photo2"; "photo3"]) as I3
      by (right; right; by left).
    rewrite !elem_of_app.
    destruct Hs1 as [[-> ->]|[N1 ->]], Hs2 as [[-> ->]|[N2 ->]],
             Hs3 as [[-> ->]|[N3 ->]];
      rewrite ?list_elem_of_singleton, ?elem_of_nil, ?Hinj by done;
      repeat (apply elem_of_cons in Hkey as [->|Hkey]);
      try (by apply elem_of_nil in Hkey);
      rewrite ?lookup_insert_eq, ?lookup_insert_ne by done;
      rewrite ?lookup_insert_eq, ?lookup_insert_ne by done;
      rewrite ?lookup_insert_eq, ?lookup_insert_ne by done;
      intuition congruence.
  - destruct Hs1 as [[_ ->]|[_ ->]], Hs2 as [[_ ->]|[_ ->]],
             Hs3 as [[_ ->]|[_ ->]]; simpl; lia.
Qed.

(** X4: A record whose folder is there but holds none of the nine candidates
    gets three blank slots and three warnings, after nine probes: missing
    files are no failure either. *)
Theorem empty_folder_row fs photos_dir (cols : list string) (cells : list scalar) out :
  let row := series cols cells in
  let app_no := app_no_of row in
  let folder := PosixPath.join photos_dir app_no in
  FS.isdir fs folder = true →
  (∀ key ext, key ∈ ["photo1"; "photo2"; "photo3"] → ext ∈ ["jpg"; "jpeg"; "png"] →
     FS.isfile fs (img_path folder key ext) = false) →
  ∃ context,
    row_context fs photos_dir cols row out
    = (Ok context,
       concat ((λ key,
         OsIsDir folder
         :: (OsIsFile <$> (img_path folder key <$> ["jpg"; "jpeg"; "png"]))
         ++ [StWarning (missing_warning key app_no)])
         <$> ["photo1"; "photo2"; "photo3"]),
       out)
    ∧ context !! "photo1" = Some blank
    ∧ context !! "photo2" = Some blank
    ∧ context !! "photo3" = Some blank.
Proof.
  intros row app_no folder Hd Hnone.
  destruct (build_context_run (document:=document) row cols ∅ out)
    as (c0 & Hb & _ & _).
  { intros col Hcol. by apply loc_series. }
  assert (∀ i key, photo_key i = key → key ∈ ["photo1"; "photo2"; "photo3"] →
    ∀ c, fill_slot fs app_no folder i c out
         = (Ok (<[key := blank]> c),
            OsIsDir folder
            :: (OsIsFile <$> (img_path folder key <$> ["jpg"; "jpeg"; "png"]))
            ++ [StWarning (missing_warning key app_no)], out)) as Hslot.
  { intros i key <- Hkey c. apply fill_slot_none; [done|].
    apply Forall_forall. intros e He. by apply Hnone. }
  exists (<["photo3" := blank]> (<["photo2" := blank]> (<["photo1" := blank]> c0))).
  split_and!.
  - unfold row_context. rewrite bind_unfold, Hb. cbv beta iota.
    fold row app_no folder. unfold for_each.
    rewrite bind_unfold, (Hslot 1%Z "photo1") by (done || by left).
    cbv beta iota.
    rewrite bind_unfold, (Hslot 2%Z "photo2") by (done || (right; by left)).
    cbv beta iota.
    rewrite bind_unfold, (Hslot 3%Z "photo3") by (done || (right; right; by left)).
    cbv beta iota. unfold ret. simpl. by rewrite ?app_nil_r.
  - rewrite lookup_insert_ne by done. rewrite lookup_insert_ne by done.
    apply lookup_insert_eq.
  - rewrite lookup_insert_ne by done. apply lookup_insert_eq.
  - apply lookup_insert_eq.
Qed.

End SlotProperties.

(** ** Columns and keys *)

Section KeyProperties.

Context {document : Type}.
Implicit Types (fs : node) (out : gmap string document)
  (context : gmap string pyval) (row : list (string * scalar)).

Ltac by_cases_on_char c :=
  destruct c as [[] [] [] [] [] [] [] []]; vm_compute;
  (split; [intros H; first [discriminate H | auto]
          | intros [H|H]; first [discriminate H | reflexivity]]).

Lemma lower_char_p (c : ascii) :
  PyStr.lower_char c = "p"%char ↔ c = "p"%char ∨ c = "P"%char.
Proof. by_cases_on_char c. Qed.

Lemma lower_char_h (c : ascii) :
  PyStr.lower_char c = "h"%char ↔ c = "h"%char ∨ c = "H"%char.
Proof. by_cases_on_char c. Qed.

Lemma lower_char_o (c : ascii) :
  PyStr.lower_char c = "o"%char ↔ c = "o"%char ∨ c = "O"%char.
Proof. by_cases_on_char c. Qed.

Lemma lower_char_t (c : ascii) :
  PyStr.lower_char c = "t"%char ↔ c = "t"%char ∨ c = "T"%char.
Proof. by_cases_on_char c. Qed.

Lemma prefix_lower_cons (a : ascii) (s col : string) :
  String.prefix (String a s) (PyStr.lower col) = true
  ↔ ∃ c rest, col = String c rest
              ∧ PyStr.lower_char c = a
              ∧ String.prefix s (PyStr.lower rest) = true.
Proof.
  destruct col as [|c rest]; simpl.
  - split; [done|]. by intros (? & ? & ? & _).
  - destruct (ascii_dec a (PyStr.lower_char c)) as [->|Hne].
    + split; [by exists c, rest|]. by intros (? & ? & [= <- <-] & _ & ?).
    + split; [done|]. intros (? & ? & [= <- <-] & ? & _). congruence.
Qed.

Lemma prefix_nil (t : string) : String.prefix "" t = true.
Proof. by destruct t. Qed.

(** X5: A column is left out of the context exactly when its name has five
    characters or more and starts with p, h, o, t, o, each in either case:
    [Photo_ID] and [PHOTOGRAPHER] are left out like [photo1], a name with
    a space before [photo] is not. *)
Theorem photo_column_iff (col : string) :
  is_photo_column col = true
  ↔ ∃ (c1 c2 c3 c4 c5 : ascii) (rest : string),
      col = String c1 (String c2 (String c3 (String c4 (String c5 rest))))
      ∧ (c1 = "p" ∨ c1 = "P")%char
      ∧ (c2 = "h" ∨ c2 = "H")%char
      ∧ (c3 = "o" ∨ c3 = "O")%char
      ∧ (c4 = "t" ∨ c4 = "T")%char
      ∧ (c5 = "o" ∨ c5 = "O")%char.
Proof.
  unfold is_photo_column, PyStr.startswith. split.
  - intros H.
    apply prefix_lower_cons in H as (c1 & r1 & -> & H1 & H).
    apply prefix_lower_cons in H as (c2 & r2 & -> & H2 & H).
    apply prefix_lower_cons in H as (c3 & r3 & -> & H3 & H).
    apply prefix_lower_cons in H as (c4 & r4 & -> & H4 & H).
    apply prefix_lower_cons in H as (c5 & r5 & -> & H5 & _).
    exists c1, c2, c3, c4, c5, r5. split; [done|].
    apply lower_char_p in H1. apply lower_char_h in H2. apply lower_char_o in H3.
    apply lower_char_t in H4. apply lower_char_o in H5. done.
  - intros (c1 & c2 & c3 & c4 & c5 & rest & -> & H1 & H2 & H3 & H4 & H5).
    apply lower_char_p in H1. apply lower_char_h in H2. apply lower_char_o in H3.
    apply lower_char_t in H4. apply lower_char_o in H5.
    apply prefix_lower_cons. eexists _, _. split_and!; [done..|].
    apply prefix_lower_cons. eexists _, _. split_and!; [done..|].
    apply prefix_lower_cons. eexists _, _. split_and!; [done..|].
    apply prefix_lower_cons. eexists _, _. split_and!; [done..|].
    apply prefix_lower_cons. eexists _, _. split_and!; [done..|].
    apply prefix_nil.
Qed.

Lemma join_absolute (a b : string) :
  PyStr.startswith b "/" = true → PosixPath.join a b = b.
Proof. unfold PosixPath.join. by intros ->. Qed.

(** X6: A key that starts with a slash is taken as a path of its own: the
    folder of the record is the key itself, whatever the photo directory
    is, the first probe of the record is of that path, and the record is
    treated the same wherever the archive was extracted. *)
Theorem absolute_key_leaves_photos_dir fs (photos_dir photos_dir' : string)
    (cols : list string) (cells : list scalar) out :
  let row := series cols cells in
  PyStr.startswith (app_no_of row) "/" = true →
  PosixPath.join photos_dir (app_no_of row) = app_no_of row
  ∧ (∃ ev, (row_context fs photos_dir cols row out).1.2
           = OsIsDir (app_no_of row) :: ev)
  ∧ row_context fs photos_dir cols row out
    = row_context fs photos_dir' cols row out.
Proof.
  intros row Habs. split_and!.
  - by apply join_absolute.
  - destruct (row_context_starts fs photos_dir cols cells out) as [ev Hev].
    exists ev. fold row in Hev. by rewrite join_absolute in Hev.
  - unfold row_context. by rewrite !(join_absolute _ _ Habs).
Qed.

Lemma lstrip_id (s : string) :
  (∀ c, PyStr.first_char s = Some c → PyStr.isspace c = false) →
  PyStr.lstrip s = s.
Proof. destruct s as [|c s]; [done|]. intros H. simpl. by rewrite (H c). Qed.

Lemma rstrip_id (s : string) :
  (∀ c, PyStr.last_char s = Some c → PyStr.isspace c = false) →
  PyStr.rstrip s = s.
Proof.
  induction s as [|c s IH]; [done|]. intros H. simpl.
  destruct s as [|d s].
  - simpl. by rewrite (H c).
  - rewrite IH by (intros e He; by apply H). done.
Qed.

(** [strip] leaves alone a text with no white space at either end. *)
Lemma strip_id (s : string) :
  (∀ c, PyStr.first_char s = Some c → PyStr.isspace c = false) →
  (∀ c, PyStr.last_char s = Some c → PyStr.isspace c = false) →
  PyStr.strip s = s.
Proof. intros Hf Hl. unfold PyStr.strip. by rewrite lstrip_id, rstrip_id. Qed.

Lemma strip_strip (s : string) : PyStr.strip (PyStr.strip s) = PyStr.strip s.
Proof. apply strip_id; [apply strip_first|apply strip_last]. Qed.





End KeyProperties.

(** ** The run *)

Section RunProperties.

Context {document : Type} (tpl_render : gmap string pyval → Res document).
Implicit Types (fs : node) (out : gmap string document)
  (context : gmap string pyval) (row : list (string * scalar)).



Lemma process_row_no_download fs photos_dir (cols : list string) (idx : nat)
    (cells : list scalar) out :
  downloads (process_row tpl_render fs photos_dir cols idx
               (series cols cells) out).1.2 = [].
Proof.
  unfold process_row. rewrite bind_unfold.
  pose proof (row_context_events (document:=document) fs photos_dir cols cells out)
    as Hev. simpl in Hev.
  destruct (row_context fs photos_dir cols (series cols cells) out)
    as [[[c|e] ev] o]; simpl in Hev;
    apply slot_events_saved in Hev as (_ & _ & Hd); [|done].
  rewrite bind_unfold, render_run.
  destruct (tpl_render c) as [doc|e]; simpl; by rewrite downloads_app, Hd.
Qed.



End RunProperties.

(** ** The archive and the ends of a run *)

Section ArchiveProperties.

Context {document : Type} (tpl_render : gmap string pyval → Res document).
Implicit Types (fs : node) (out : gmap string document)
  (context : gmap string pyval) (row : list (string * scalar)).

(** X9: An archive that [zipfile] cannot open ends the run with the exception
    of [zipfile]: unlike a sheet that cannot be read, it is not reported
    through [st.error], and no row of the sheet is looked at. *)
Theorem unreadable_archive_raises (df : DataFrame) (e : exn)
    (tmpdir : string) out :
  main tpl_render true (Some (Ok df)) (Some (Raise e)) tmpdir out
  = (Raise e, [], ∅).
Proof. reflexivity. Qed.

(** X10: A sheet without data rows still ends with the download, of an empty
    archive: nothing is probed, rendered or saved, and no warning is
    given. *)
Theorem empty_sheet_empty_archive (df : DataFrame) fs (tmpdir : string) out :
  data df = [] →
  main tpl_render true (Some (Ok df)) (Some (Ok fs)) tmpdir out
  = (Ok tt, [StDownloadButton []], ∅).
Proof.
  intros Hdata. unfold main. rewrite bind_unfold. unfold ret at 1. cbv beta iota.
  unfold with_tempdir. rewrite bind_unfold. unfold ret at 1. cbv beta iota.
  rewrite bind_unfold. unfold iterrows. rewrite Hdata. simpl.
  rewrite bind_unfold. unfold os_listdir. rewrite map_to_list_empty. done.
Qed.

Lemma names_sorted_up_to_9 (n : nat) :
  n ≤ 9 → Sorted String.le (out_name <$> seq 0 n).
Proof.
  intros Hn.
  do 10 (destruct n as [|n];
         [refine (bool_decide_unpack _ _); vm_compute; exact I|]).
  lia.
Qed.

(** X11: Up to nine rows, the archive lists the documents in the order of the
    rows. *)
Theorem archive_in_row_order_up_to_9 (df : DataFrame) fs (tmpdir : string) out :
  length (data df) ≤ 9 →
  forallb (λ r, is_ok (process_row tpl_render fs (PosixPath.join tmpdir "photos")
                         (columns df) r.1 r.2 ∅).1.1) (iterrows df) = true →
  ∃ ev zipf,
    main tpl_render true (Some (Ok df)) (Some (Ok fs)) tmpdir out
    = (Ok tt, ev ++ [StDownloadButton zipf], ∅)
    ∧ zipf.*1 = out_name <$> seq 0 (length (data df)).
Proof.
  intros Hn Hok. destruct (main_done tpl_render df fs tmpdir out Hok)
    as (results & zipf & _ & Hmain & _ & _ & Hperm & Hsorted & _).
  exists (loop_trace 0 results), zipf. split; [done|].
  apply (Sorted_unique String.le); [done| |done].
  by apply names_sorted_up_to_9.
Qed.

(** X12: From ten rows on, the archive is not in the order of the rows: the
    order of the names is that of their characters, so the document of
    row 10 stands before the document of row 2. *)
Theorem archive_order_from_10 (df : DataFrame) fs (tmpdir : string) out :
  10 ≤ length (data df) →
  forallb (λ r, is_ok (process_row tpl_render fs (PosixPath.join tmpdir "photos")
                         (columns df) r.1 r.2 ∅).1.1) (iterrows df) = true →
  ∃ ev zipf l1 l2,
    main tpl_render true (Some (Ok df)) (Some (Ok fs)) tmpdir out
    = (Ok tt, ev ++ [StDownloadButton zipf], ∅)
    ∧ zipf.*1 = l1 ++ "filled_form_2.docx" :: l2
    ∧ "filled_form_10.docx" ∈ l1.
Proof.
  intros Hn Hok. destruct (main_done tpl_render df fs tmpdir out Hok)
    as (results & zipf & _ & Hmain & _ & _ & Hperm & Hsorted & _).
  assert (out_name 1 ∈ zipf.*1) as H2.
  { rewrite Hperm. apply list_elem_of_fmap. exists 1%nat. split; [done|].
    apply elem_of_seq. lia. }
  assert (out_name 9 ∈ zipf.*1) as H10.
  { rewrite Hperm. apply list_elem_of_fmap. exists 9%nat. split; [done|].
    apply elem_of_seq. lia. }
  apply list_elem_of_split in H2 as (l1 & l2 & Hsplit).
  exists (loop_trace 0 results), zipf, l1, l2. split_and!; [done|done|].
  rewrite Hsplit in H10, Hsorted.
  apply elem_of_app in H10 as [H10|H10]; [done|].
  apply elem_of_cons in H10 as [H10|H10]; [discriminate H10|].
  apply (Sorted_StronglySorted String.le) in Hsorted.
  apply StronglySorted_app_1_r, StronglySorted_cons in Hsorted as [Hle _].
  rewrite Forall_forall in Hle. specialize (Hle _ H10). done.
Qed.

(** X13: In a run that goes through, every row is rendered once, in the order
    of the sheet, each from the context built for it. *)
Theorem each_row_rendered_once (df : DataFrame) fs (tmpdir : string) out :
  forallb (λ r, is_ok (process_row tpl_render fs (PosixPath.join tmpdir "photos")
                         (columns df) r.1 r.2 ∅).1.1) (iterrows df) = true →
  ∃ ev zipf,
    main tpl_render true (Some (Ok df)) (Some (Ok fs)) tmpdir out
    = (Ok tt, ev ++ [StDownloadButton zipf], ∅)
    ∧ Forall2 (λ cells context,
         (row_context (document:=document) fs (PosixPath.join tmpdir "photos")
            (columns df) (series (columns df) cells) ∅).1.1 = Ok context)
        (data df) (rendered ev).
Proof.
  intros Hok. destruct (main_done tpl_render df fs tmpdir out Hok)
    as (results & zipf & Hdone & Hmain & _).
  exists (loop_trace 0 results), zipf. split; [done|].
  destruct (loop_trace_saved 0 results (rows_done_events _ _ _ _ _ _ Hdone))
    as (_ & -> & _).
  unfold rows_done in Hdone. rewrite Forall2_fmap_l in Hdone.
  rewrite <- list_fmap_compose, Forall2_fmap_r.
  eapply Forall2_impl; [exact Hdone|].
  intros cells t [Hrc _]. simpl. by rewrite Hrc.
Qed.

Lemma zip_write_no_events (names : list string) (zipf : list (string * document)) out :
  (for_each names zip_write zipf out).1.2 = [].
Proof.
  revert zipf. induction names as [|n names IH]; intros zipf; [done|].
  simpl. rewrite bind_unfold. unfold zip_write at 1.
  destruct (out !! n); [|done].
  specialize (IH (zipf ++ [(n, d)])).
  by destruct (for_each names zip_write (zipf ++ [(n, d)]) out) as [[??]?].
Qed.

Lemma loop_no_download fs photos_dir (cols : list string)
    (cellss : list (list scalar)) (i : nat) out :
  downloads (for_each (enumerate_from i (series cols <$> cellss))
               (λ r _, process_row tpl_render fs photos_dir cols r.1 r.2)
               tt out).1.2 = [].
Proof.
  revert i out. induction cellss as [|cells cellss IH]; intros i out; [done|].
  simpl. rewrite bind_unfold.
  pose proof (process_row_no_download tpl_render fs photos_dir cols i cells out)
    as Hrow.
  destruct (process_row tpl_render fs photos_dir cols i (series cols cells) out)
    as [[[[]|e] ev] o]; simpl in Hrow; [|done].
  specialize (IH (S i) o).
  destruct (for_each _ _ tt o) as [[r ev'] o']. simpl in *.
  by rewrite downloads_app, Hrow, IH.
Qed.

(** X14: The download is offered at most once, as the last call of a run, and
    only by a run that was started with the button and came to its end
    without exception or stop: a run that ends otherwise offers
    nothing. *)
Theorem download_only_at_the_end (generate_btn : bool)
    (excel_file : option (Res DataFrame)) (photos_zip : option (Res node))
    (tmpdir : string) out :
  let run := main tpl_render generate_btn excel_file photos_zip tmpdir out in
  downloads run.1.2 = []
  ∨ ∃ ev zipf,
      run.1.2 = ev ++ [StDownloadButton zipf]
      ∧ downloads ev = []
      ∧ run.1.1 = Ok tt
      ∧ generate_btn = true.
Proof.
  intros run.
  assert (run = main tpl_render generate_btn excel_file photos_zip tmpdir out)
    as Hrun by reflexivity.
  clearbody run. revert Hrun. unfold main.
  destruct generate_btn; [|intros ->; by left].
  destruct excel_file as [[df|e]|]; [| |intros ->; by left].
  2: { destruct photos_zip; intros ->; by left. }
  destruct photos_zip as [[fs|e]|]; [|intros ->; by left..].
  rewrite bind_unfold. unfold ret at 1. cbv beta iota.
  unfold with_tempdir. rewrite bind_unfold. unfold ret at 1. cbv beta iota.
  rewrite bind_unfold. unfold iterrows.
  pose proof (loop_no_download fs (PosixPath.join tmpdir "photos") (columns df)
                (data df) 0 ∅) as Hloop.
  destruct (for_each _ _ tt ∅) as [[[[]|e] ev] o]; simpl in Hloop;
    [|intros ->; by left].
  rewrite bind_unfold. unfold os_listdir at 1. cbv beta iota.
  rewrite bind_unfold.
  pose proof (zip_write_no_events (merge_sort String.le (map_to_list o).*1) [] o)
    as Hzip.
  destruct (for_each _ zip_write [] o) as [[[zipf|e] evz] oz]; simpl in Hzip;
    subst evz; simpl; intros ->.
  - right. by exists ev, zipf.
  - left. simpl. by rewrite ?app_nil_r.
Qed.

End ArchiveProperties.

(** * The further properties on sample inputs *)

Lemma undecodable_match_raises_witness :
  fill_slot (document:=unit)
    (Dir [("d", Dir [("photo1.jpg", File None);
                     ("photo1.png", File (Some (10, 10)%Z))])])
    "d" "/d" 1 ∅ ∅
  = (Raise (UnidentifiedImageError "/d/photo1.jpg"),
     [OsIsDir "/d"; OsIsFile "/d/photo1.jpg"; PilOpen "/d/photo1.jpg"], ∅).
Proof.
  apply (undecodable_match_raises (document:=unit)
           (Dir [("d", Dir [("photo1.jpg", File None);
                            ("photo1.png", File (Some (10, 10)%Z))])])
           "d" "/d" 1 ∅ ∅ [] "jpg" ["jpeg"; "png"] None).
  - reflexivity.
  - reflexivity.
  - constructor.
  - reflexivity.
  - exact I.
Defined.

Lemma fill_slot_frame_witness :
  fill_slot (document:=unit)
    (Dir [("d", Dir [("photo1.png", File (Some (10, 20)%Z))])]) "d" "/d" 1 ∅ ∅
  = fill_slot (document:=unit)
      (Dir [("d", Dir [("photo1.png", File (Some (10, 20)%Z));
                       ("photo1.JPG", File (Some (30, 30)%Z));
                       ("notes.txt", File None)]);
            ("e", Dir [])]) "d" "/d" 1 ∅ ∅.
Proof.
  apply (fill_slot_frame (document:=unit)).
  - reflexivity.
  - repeat constructor.
Defined.

Lemma blank_iff_warned_witness :
  ∃ context ev,
    row_context (document:=unit) Sample.fs Sample.photos_dir Sample.cols
      (series Sample.cols [SStr " A100 "; SStr "Ann"; SStr "x"; SInt 5]) ∅
    = (Ok context, ev, ∅)
    ∧ context !! "photo3" = Some blank
    ∧ (length (warnings ev) ≤ 3)%nat.
Proof.
  destruct (row_context (document:=unit) Sample.fs Sample.photos_dir Sample.cols
              (series Sample.cols [SStr " A100 "; SStr "Ann"; SStr "x"; SInt 5]) ∅)
    as [[[context|e] ev] o] eqn:Hrc; [|vm_compute in Hrc; discriminate Hrc].
  destruct (row_context_inv _ _ _ _ _ _ _ _ Hrc) as [-> _].
  exists context, ev. split; [reflexivity|].
  destruct (blank_iff_warned (document:=unit) Sample.fs Sample.photos_dir
              Sample.cols [SStr " A100 "; SStr "Ann"; SStr "x"; SInt 5]
              ∅ context ev ∅ Hrc) as [Hiff Hlen].
  split; [|exact Hlen].
  apply Hiff; [in_list|].
  vm_compute in Hrc. injection Hrc as _ Hev. rewrite <- Hev.
  vm_compute. apply list_elem_of_here.
Defined.

Lemma empty_folder_row_witness :
  ∃ context,
    (row_context (document:=unit)
       (Dir [("p", Dir [("K", Dir [("photo1.gif", File (Some (5, 5)%Z))])])])
       "/p" ["Application_Number"]
       (series ["Application_Number"] [SStr "K"]) ∅).1.1 = Ok context
    ∧ context !! "photo1" = Some blank.
Proof.
  destruct (empty_folder_row (document:=unit)
              (Dir [("p", Dir [("K", Dir [("photo1.gif", File (Some (5, 5)%Z))])])])
              "/p" ["Application_Number"] [SStr "K"] ∅)
    as (context & Hrc & H1 & _).
  - reflexivity.
  - intros key ext Hkey Hext.
    repeat (apply elem_of_cons in Hkey as [->|Hkey]);
      [..|by apply elem_of_nil in Hkey];
      (repeat (apply elem_of_cons in Hext as [->|Hext]);
       [..|by apply elem_of_nil in Hext]); reflexivity.
  - exists context. rewrite Hrc. split; [reflexivity|exact H1].
Defined.

Lemma photo_column_iff_witness :
  is_photo_column "PhOtOgrapher" = true ∧ is_photo_column " photo1" = false.
Proof.
  split.
  - apply photo_column_iff.
    exists "P"%char, "h"%char, "O"%char, "t"%char, "O"%char, "grapher".
    split_and!; first [reflexivity | by left | by right].
  - destruct (is_photo_column " photo1") eqn:H; [|reflexivity].
    apply photo_column_iff in H as (c1 & ? & ? & ? & ? & ? & Hcol & [H1|H1] & _);
      subst c1; discriminate Hcol.
Defined.

Lemma absolute_key_leaves_photos_dir_witness :
  PosixPath.join "/tmp/run/photos" "/tmp/run/outputs" = "/tmp/run/outputs"
  ∧ row_context (document:=unit) Sample.fs "/tmp/run/photos" ["Application_Number"]
      (series ["Application_Number"] [SStr "/tmp/run/outputs"]) ∅
    = row_context (document:=unit) Sample.fs "/elsewhere" ["Application_Number"]
        (series ["Application_Number"] [SStr "/tmp/run/outputs"]) ∅.
Proof.
  destruct (absolute_key_leaves_photos_dir (document:=unit) Sample.fs
              "/tmp/run/photos" "/elsewhere" ["Application_Number"]
              [SStr "/tmp/run/outputs"] ∅) as (Hjoin & _ & Hsame).
  - reflexivity.
  - split; [exact Hjoin|exact Hsame].
Defined.



Lemma empty_sheet_empty_archive_witness :
  main Sample.echo true (Some (Ok {| columns := ["Name"]; data := [] |}))
    (Some (Ok Sample.fs)) Sample.tmpdir ∅
  = (Ok tt, [StDownloadButton []], ∅).
Proof.
  apply (empty_sheet_empty_archive Sample.echo
           {| columns := ["Name"]; data := [] |} Sample.fs Sample.tmpdir ∅).
  reflexivity.
Defined.

Lemma archive_in_row_order_up_to_9_witness :
  ∃ ev zipf,
    main Sample.echo true (Some (Ok Sample.df)) (Some (Ok Sample.fs)) Sample.tmpdir ∅
    = (Ok tt, ev ++ [StDownloadButton zipf], ∅)
    ∧ zipf.*1 = ["filled_form_1.docx"; "filled_form_2.docx"].
Proof.
  destruct (archive_in_row_order_up_to_9 Sample.echo Sample.df Sample.fs
              Sample.tmpdir ∅) as (ev & zipf & Hmain & Hnames).
  - simpl. lia.
  - vm_compute. reflexivity.
  - exists ev, zipf. split; [exact Hmain|exact Hnames].
Defined.

Lemma archive_order_from_10_witness :
  ∃ ev zipf l1 l2,
    main Sample.echo true
      (Some (Ok {| columns := ["Name"]; data := replicate 11 [SStr "x"] |}))
      (Some (Ok Sample.fs)) Sample.tmpdir ∅
    = (Ok tt, ev ++ [StDownloadButton zipf], ∅)
    ∧ zipf.*1 = l1 ++ "filled_form_2.docx" :: l2
    ∧ "filled_form_10.docx" ∈ l1.
Proof.
  apply (archive_order_from_10 Sample.echo
           {| columns := ["Name"]; data := replicate 11 [SStr "x"] |}
           Sample.fs Sample.tmpdir ∅).
  - simpl. lia.
  - vm_compute. reflexivity.
Defined.

Lemma each_row_rendered_once_witness :
  ∃ ev zipf,
    main Sample.echo true (Some (Ok Sample.df)) (Some (Ok Sample.fs)) Sample.tmpdir ∅
    = (Ok tt, ev ++ [StDownloadButton zipf], ∅)
    ∧ length (rendered ev) = 2%nat.
Proof.
  destruct (each_row_rendered_once Sample.echo Sample.df Sample.fs Sample.tmpdir ∅)
    as (ev & zipf & Hmain & Hren).
  - vm_compute. reflexivity.
  - exists ev, zipf. split; [exact Hmain|].
    apply Forall2_length in Hren. rewrite <- Hren. reflexivity.
Defined.
